(** * The workflow execution panel: run protocol of [ExecutionPanel]

    A shallow embedding of the React component [ExecutionPanel]
    (frontend/components, second half of [WorkflowDesigner.tsx]) and of the
    part of the browser it talks to: the values produced by [JSON.parse],
    the [WebSocket] objects the component creates, and the events the
    browser delivers to the handlers installed by [handleRunWorkflow].

    The component keeps three pieces of React state ([isWorkflowRunning],
    [workflowResults], [currentStatus]) and two refs ([lastStepResultRef],
    [wsRef]).  Each handler is modelled as a function on that state; the
    browser's built-ins it calls are collected in the interface [Host], and
    an executable instance [reference_host] is given to run scenarios. *)

From Stdlib Require Import ZArith NArith List String Ascii Bool Lia DecimalString.
From Stdlib Require Import Floats.SpecFloat.
From Stdlib Require Import Permutation Sorted DecimalZ DecimalPos.
Import ListNotations.
Open Scope string_scope.

Set Warnings "-register-all".

(** ** ECMAScript values *)

Module JS.

(** The values a handler can see.  Everything the panel receives comes out
    of [JSON.parse], so objects are plain records of own data properties and
    numbers are IEEE 754 binary64 values ([spec_float] at precision 53). *)
Inductive JsValue : Type :=
| JUndefined
| JNull
| JBool (b : bool)
| JNum (x : spec_float)
| JStr (s : string)
| JArr (elems : list JsValue)
| JObj (props : list (string * JsValue)).

(** Strings are kept as the UTF-8 bytes of their text.  The panel only
    tests strings for emptiness, compares them with ASCII literals and
    concatenates them, which is the same on bytes and on UTF-16 units. *)

Inductive Exn := SyntaxError | TypeError | InvalidStateError.

(** [ToBoolean]: the truthiness used by [if (x)], [!x] and [x || y]. *)
Definition ToBoolean (v : JsValue) : bool :=
  match v with
  | JUndefined | JNull => false
  | JBool b => b
  | JNum (S754_zero _) | JNum S754_nan => false
  | JNum _ => true
  | JStr s => negb (s =? "")
  | JArr _ | JObj _ => true
  end.

Fixpoint own_prop (k : string) (props : list (string * JsValue)) : option JsValue :=
  match props with
  | [] => None
  | (k', v) :: rest => if k' =? k then Some v else own_prop k rest
  end.

(** Defining a property that exists keeps its position, as
    [CreateDataProperty] does; a new key goes last. *)
Fixpoint define_prop (k : string) (v : JsValue) (props : list (string * JsValue))
  : list (string * JsValue) :=
  match props with
  | [] => [(k, v)]
  | (k', v') :: rest =>
      if k' =? k then (k, v) :: rest else (k', v') :: define_prop k v rest
  end.

(** [data.k] for the keys the panel reads ([type], [message], [result]).
    None of them is defined on [Object.prototype], [Array.prototype],
    [String.prototype], [Number.prototype] or [Boolean.prototype], nor as an
    own property of an array or a string, so the lookup is decided by the
    own properties of an object and is [undefined] on every other value
    except [null] and [undefined], where property access throws. *)
Definition Get (v : JsValue) (k : string) : Exn + JsValue :=
  match v with
  | JUndefined | JNull => inl TypeError
  | JObj props =>
      inr (match own_prop k props with Some x => x | None => JUndefined end)
  | _ => inr JUndefined
  end.

(** [v === 'lit'] against a string literal. *)
Definition strict_eq_str (v : JsValue) (lit : string) : bool :=
  match v with
  | JStr s => s =? lit
  | _ => false
  end.

End JS.
Export JS.

(** ** The browser interface *)

(** What the component calls but does not define.  [JSON_parse] returns
    [None] where [JSON.parse] throws [SyntaxError]; [Number_toString] is
    [Number.prototype.toString]; [NEXT_PUBLIC_BACKEND_URL] is the build-time
    environment entry of that name, [None] when it is not set. *)
Class Host := {
  JSON_parse : string -> option JsValue;
  Number_toString : spec_float -> string;
  NEXT_PUBLIC_BACKEND_URL : option string
}.

(** ** Conversion to string *)

Section ToString.
Context `{Host}.

Definition join_with (sep : string) (parts : list string) : string :=
  match parts with
  | [] => ""
  | p :: ps => fold_left (fun acc q => acc ++ sep ++ q) ps p
  end.

(** [ToString] as a template literal applies it.  An object parsed from
    JSON is converted by [Object.prototype.toString] unless it has an own
    property [toString], which is never callable: the conversion then
    falls to [valueOf], which yields no primitive, and throws.  An array is
    joined with commas, [null] and [undefined] elements giving the empty
    string. *)
Fixpoint ToString (v : JsValue) : Exn + string :=
  match v with
  | JUndefined => inr "undefined"
  | JNull => inr "null"
  | JBool true => inr "true"
  | JBool false => inr "false"
  | JNum x => inr (Number_toString x)
  | JStr s => inr s
  | JArr elems =>
      let fix parts (l : list JsValue) : Exn + list string :=
        match l with
        | [] => inr []
        | e :: l' =>
            match (match e with
                   | JUndefined | JNull => inr ""
                   | _ => ToString e
                   end), parts l' with
            | inl x, _ => inl x
            | inr _, inl x => inl x
            | inr s, inr ss => inr (s :: ss)
            end
        end in
      match parts elems with
      | inl x => inl x
      | inr ss => inr (join_with "," ss)
      end
  | JObj props =>
      match own_prop "toString" props with
      | Some _ => inl TypeError
      | None => inr "[object Object]"
      end
  end.
End ToString.

(** ** The component *)

(** [WebSocket.readyState]. *)
Inductive ReadyState := CONNECTING | OPEN | CLOSING | CLOSED.

(** The one message the panel sends: the object
    [{ type: 'stepInput', content }] handed to [JSON.stringify] and
    [ws.send]. *)
Inductive Command := stepInput (content : JsValue).

(** A socket created by [new WebSocket(url)]; [sent] lists what was
    transmitted on it, oldest first. *)
Record WebSocket := mkWebSocket {
  url : string;
  readyState : ReadyState;
  sent : list Command
}.

(** The state of one mounted [ExecutionPanel].  [sockets] holds every
    socket the component has constructed, in creation order; a socket is
    named by its position there, and [wsRef] is [wsRef.current]. *)
Record Panel := mkPanel {
  isWorkflowRunning : bool;
  workflowResults : list JsValue;
  currentStatus : JsValue;
  lastStepResultRef : JsValue;
  wsRef : option nat;
  sockets : list WebSocket;
  alerts : list string
}.

(** State on mount: [useState(false)], [useState([])], [useState("")],
    [useRef("")], [useRef(null)]. *)
Definition mounted : Panel :=
  {| isWorkflowRunning := false;
     workflowResults := [];
     currentStatus := JStr "";
     lastStepResultRef := JStr "";
     wsRef := None;
     sockets := [];
     alerts := [] |}.

Definition setIsWorkflowRunning (b : bool) (p : Panel) : Panel :=
  {| isWorkflowRunning := b;
     workflowResults := workflowResults p;
     currentStatus := currentStatus p;
     lastStepResultRef := lastStepResultRef p;
     wsRef := wsRef p;
     sockets := sockets p;
     alerts := alerts p |}.

(** [setWorkflowResults] with an updater function, as the result branch
    calls it; [handleRunWorkflow] passes the constant updater. *)
Definition setWorkflowResults (f : list JsValue -> list JsValue) (p : Panel) : Panel :=
  {| isWorkflowRunning := isWorkflowRunning p;
     workflowResults := f (workflowResults p);
     currentStatus := currentStatus p;
     lastStepResultRef := lastStepResultRef p;
     wsRef := wsRef p;
     sockets := sockets p;
     alerts := alerts p |}.

Definition setCurrentStatus (v : JsValue) (p : Panel) : Panel :=
  {| isWorkflowRunning := isWorkflowRunning p;
     workflowResults := workflowResults p;
     currentStatus := v;
     lastStepResultRef := lastStepResultRef p;
     wsRef := wsRef p;
     sockets := sockets p;
     alerts := alerts p |}.

Definition set_lastStepResultRef (v : JsValue) (p : Panel) : Panel :=
  {| isWorkflowRunning := isWorkflowRunning p;
     workflowResults := workflowResults p;
     currentStatus := currentStatus p;
     lastStepResultRef := v;
     wsRef := wsRef p;
     sockets := sockets p;
     alerts := alerts p |}.

Definition set_wsRef (r : option nat) (p : Panel) : Panel :=
  {| isWorkflowRunning := isWorkflowRunning p;
     workflowResults := workflowResults p;
     currentStatus := currentStatus p;
     lastStepResultRef := lastStepResultRef p;
     wsRef := r;
     sockets := sockets p;
     alerts := alerts p |}.

Definition set_sockets (l : list WebSocket) (p : Panel) : Panel :=
  {| isWorkflowRunning := isWorkflowRunning p;
     workflowResults := workflowResults p;
     currentStatus := currentStatus p;
     lastStepResultRef := lastStepResultRef p;
     wsRef := wsRef p;
     sockets := l;
     alerts := alerts p |}.

Definition alert (msg : string) (p : Panel) : Panel :=
  {| isWorkflowRunning := isWorkflowRunning p;
     workflowResults := workflowResults p;
     currentStatus := currentStatus p;
     lastStepResultRef := lastStepResultRef p;
     wsRef := wsRef p;
     sockets := sockets p;
     alerts := (alerts p ++ [msg])%list |}.

(** Replace the socket at position [i]; nothing happens out of range. *)
Fixpoint update_socket (i : nat) (f : WebSocket -> WebSocket) (l : list WebSocket)
  : list WebSocket :=
  match l, i with
  | [], _ => []
  | w :: l', O => f w :: l'
  | w :: l', S i' => w :: update_socket i' f l'
  end.

Definition set_readyState (r : ReadyState) (w : WebSocket) : WebSocket :=
  {| url := url w; readyState := r; sent := sent w |}.

Definition transmit (c : Command) (w : WebSocket) : WebSocket :=
  {| url := url w; readyState := readyState w; sent := (sent w ++ [c])%list |}.

(** What a handler does: it returns, leaving a new state, or throws.  Every
    throw point of the handlers below comes before the first state update
    of its handler, so a handler that throws leaves the state it found. *)
Inductive Outcome :=
| Returned (p : Panel)
| Threw (e : Exn).

(** [ws.send(c)]: throws while the socket is connecting, transmits when it
    is open, and silently discards once it is closing or closed.  A handler
    is installed on a socket that was constructed, so [ws] is in range;
    out of range there is nothing to send on. *)
Definition ws_send (ws : nat) (c : Command) (p : Panel) : Outcome :=
  match nth_error (sockets p) ws with
  | None => Returned p
  | Some w =>
      match readyState w with
      | CONNECTING => Threw InvalidStateError
      | OPEN => Returned (set_sockets (update_socket ws (transmit c) (sockets p)) p)
      | CLOSING | CLOSED => Returned p
      end
  end.

Definition bind {A : Type} (x : Exn + A) (k : A -> Outcome) : Outcome :=
  match x with
  | inl e => Threw e
  | inr a => k a
  end.

Notation "'let*' x ':=' e 'in' k" := (bind e (fun x => k))
  (at level 10, x name, e at level 100, k at level 200, only parsing).

Fixpoint strip_prefix (pre s : string) : option string :=
  match pre, s with
  | EmptyString, _ => Some s
  | String a pre', String b s' => if (a =? b)%char then strip_prefix pre' s' else None
  | String _ _, EmptyString => None
  end.

Section Handlers.
Context `{Host}.

(** [process.env.NEXT_PUBLIC_BACKEND_URL || '...']: an unset or empty entry
    gives the deployed backend. *)
Definition backendApiUrl : string :=
  match NEXT_PUBLIC_BACKEND_URL with
  | Some u => if u =? "" then "https://ai-orchestrator-backend.onrender.com" else u
  | None => "https://ai-orchestrator-backend.onrender.com"
  end.

(** [backendApiUrl.replace(/^https?/, m => m === 'https' ? 'wss' : 'ws')]. *)
Definition wsUrl : string :=
  match strip_prefix "https" backendApiUrl with
  | Some rest => "wss" ++ rest
  | None =>
      match strip_prefix "http" backendApiUrl with
      | Some rest => "ws" ++ rest
      | None => backendApiUrl
      end
  end.

(** A workflow id is an integer; [selectedWorkflowId] is [number | null].
    [!selectedWorkflowId] holds for [null] and for [0]. *)
Definition id_truthy (selectedWorkflowId : option Z) : bool :=
  match selectedWorkflowId with
  | Some id => negb (id =? 0)%Z
  | None => false
  end.

Definition id_text (id : Z) : string :=
  DecimalString.NilZero.string_of_int (Z.to_int id).

(** [handleRunWorkflow].  The socket is constructed on a URL the browser
    accepts, so the constructor returns a socket that is connecting. *)
Definition handleRunWorkflow (selectedWorkflowId : option Z) (p : Panel) : Panel :=
  match selectedWorkflowId with
  | Some id =>
      if negb (id_truthy selectedWorkflowId)
      then alert "Please select a workflow to run." p
      else
        let p := setIsWorkflowRunning true p in
        let p := setWorkflowResults (fun _ => []) p in
        let p := setCurrentStatus (JStr "Connecting to workflow engine...") p in
        let p := set_lastStepResultRef (JStr "") p in
        let ws := mkWebSocket (wsUrl ++ "/ws/workflows/" ++ id_text id ++ "/run")
                              CONNECTING [] in
        let n := List.length (sockets p) in
        let p := set_sockets (sockets p ++ [ws])%list p in
        set_wsRef (Some n) p
  | None => alert "Please select a workflow to run." p
  end.

(** [ws.onopen]. *)
Definition onopen (p : Panel) : Panel :=
  setCurrentStatus (JStr "Connection established. Starting workflow...") p.

(** [ws.onmessage] of the socket [ws], on a frame whose text is
    [event_data]. *)
Definition onmessage (ws : nat) (event_data : string) (p : Panel) : Outcome :=
  match JSON_parse event_data with
  | None => Threw SyntaxError
  | Some data =>
      let* type := Get data "type" in
      if strict_eq_str type "status" then
        let* message := Get data "message" in
        Returned (setCurrentStatus message p)
      else if strict_eq_str type "result" then
        let* result := Get data "result" in
        let p := set_lastStepResultRef result p in
        Returned (setWorkflowResults (fun prevResults => (prevResults ++ [data])%list) p)
      else if strict_eq_str type "nextStep" then
        if ToBoolean (lastStepResultRef p)
        then ws_send ws (stepInput (lastStepResultRef p)) p
        else Returned p
      else if strict_eq_str type "error" then
        let* message := Get data "message" in
        let* text := ToString message in
        let p := setCurrentStatus (JStr ("Error: " ++ text)) p in
        Returned (setIsWorkflowRunning false p)
      else Returned p
  end.

(** [ws.onclose]. *)
Definition onclose (p : Panel) : Panel :=
  let p := setCurrentStatus (JStr "Workflow finished. Connection closed.") p in
  let p := setIsWorkflowRunning false p in
  set_wsRef None p.

(** [ws.onerror]. *)
Definition onerror (p : Panel) : Panel :=
  let p := setCurrentStatus
             (JStr "Connection error. Please check if the backend is accessible.") p in
  let p := setIsWorkflowRunning false p in
  set_wsRef None p.

(** The [beforeunload] listener: close [wsRef.current] when it is open. *)
Definition beforeunload (p : Panel) : Panel :=
  match wsRef p with
  | Some ws =>
      match nth_error (sockets p) ws with
      | Some w =>
          match readyState w with
          | OPEN => set_sockets (update_socket ws (set_readyState CLOSING) (sockets p)) p
          | _ => p
          end
      | None => p
      end
  | None => p
  end.

End Handlers.

(** ** Events *)

(** What can happen to a mounted panel.  [RunClick] is a click on the run
    button while the parent passes [selectedWorkflowId].  The socket events
    name the socket they belong to.  [WsClosed ws failed] is the browser's
    closing task for a socket: it sets [readyState] to [CLOSED], fires
    [error] first when the connection failed, and then fires [close]. *)
Inductive Event :=
| RunClick (selectedWorkflowId : option Z)
| WsOpen (ws : nat)
| WsMessage (ws : nat) (data : string)
| WsClosed (ws : nat) (failed : bool)
| BeforeUnload.

Section Run.
Context `{Host}.

(** An exception that leaves a handler is reported by the browser and the
    page goes on with the state the handler left. *)
Definition settle (p : Panel) (o : Outcome) : Panel :=
  match o with
  | Returned p' => p'
  | Threw _ => p
  end.

Definition browser_sets (ws : nat) (r : ReadyState) (p : Panel) : Panel :=
  set_sockets (update_socket ws (set_readyState r) (sockets p)) p.

Definition step (p : Panel) (ev : Event) : Panel :=
  match ev with
  | RunClick selectedWorkflowId => handleRunWorkflow selectedWorkflowId p
  | WsOpen ws => onopen (browser_sets ws OPEN p)
  | WsMessage ws data => settle p (onmessage ws data p)
  | WsClosed ws failed =>
      let p := browser_sets ws CLOSED p in
      let p := if failed then onerror p else p in
      onclose p
  | BeforeUnload => beforeunload p
  end.

Definition run (p : Panel) (evs : list Event) : Panel := fold_left step evs p.

Definition state_of (ws : nat) (p : Panel) : option ReadyState :=
  option_map readyState (nth_error (sockets p) ws).

(** What was transmitted on socket [ws] so far. *)
Definition sent_on (ws : nat) (p : Panel) : list Command :=
  match nth_error (sockets p) ws with
  | Some w => sent w
  | None => []
  end.

(** The events the browser can deliver in state [p]: a click needs the
    button enabled ([disabled={!selectedWorkflowId || isWorkflowRunning}]);
    [open] comes to a connecting socket, a message to a socket that is open
    or closing, and the closing task to a socket not yet closed. *)
Definition deliverable (p : Panel) (ev : Event) : bool :=
  match ev with
  | RunClick selectedWorkflowId =>
      negb (negb (id_truthy selectedWorkflowId) || isWorkflowRunning p)
  | WsOpen ws =>
      match state_of ws p with Some CONNECTING => true | _ => false end
  | WsMessage ws _ =>
      match state_of ws p with Some OPEN | Some CLOSING => true | _ => false end
  | WsClosed ws _ =>
      match state_of ws p with
      | Some CONNECTING | Some OPEN | Some CLOSING => true
      | _ => false
      end
  | BeforeUnload => true
  end.

Fixpoint deliverable_trace (p : Panel) (evs : list Event) : bool :=
  match evs with
  | [] => true
  | ev :: evs' => deliverable p ev && deliverable_trace (step p ev) evs'
  end.

(** The frame kinds of the handler's [if]/[else] chain: [frame_is k data]
    when [data] parses and [data.type === k]. *)
Definition frame_is (k : string) (data : string) : bool :=
  match JSON_parse data with
  | Some d =>
      match Get d "type" with
      | inr t => strict_eq_str t k
      | inl _ => false
      end
  | None => false
  end.

(** The parsed payloads of the result frames among [evs], in order. *)
Fixpoint result_payloads (evs : list Event) : list JsValue :=
  match evs with
  | [] => []
  | WsMessage _ data :: evs' =>
      match JSON_parse data with
      | Some d =>
          if frame_is "result" data then d :: result_payloads evs'
          else result_payloads evs'
      | None => result_payloads evs'
      end
  | _ :: evs' => result_payloads evs'
  end.

Definition starts_run (ev : Event) : bool :=
  match ev with
  | RunClick selectedWorkflowId => id_truthy selectedWorkflowId
  | _ => false
  end.

Definition is_result_frame (ev : Event) : bool :=
  match ev with
  | WsMessage _ data => frame_is "result" data
  | _ => false
  end.

End Run.

(** ** A reference host *)

(** An executable [JSON.parse] and [Number.prototype.toString], used to run
    the panel on concrete frames. *)
Module Reference.

Definition dquote : ascii := "034"%char.
Definition backslash : ascii := "092"%char.

(** Frames are written below with apostrophes where the wire has double
    quotes; [wire] puts the double quotes back. *)
Fixpoint wire (s : string) : string :=
  match s with
  | EmptyString => EmptyString
  | String c r => String (if (c =? "'")%char then dquote else c) (wire r)
  end.

Definition is_ws (c : ascii) : bool :=
  ((c =? " ") || (c =? "009") || (c =? "010") || (c =? "013"))%char.

Fixpoint skip_ws (s : string) : string :=
  match s with
  | String c r => if is_ws c then skip_ws r else s
  | EmptyString => s
  end.

Definition digit_val (c : ascii) : option N :=
  let n := N_of_ascii c in
  if ((48 <=? n) && (n <=? 57))%N then Some (n - 48)%N else None.

Definition hex_val (c : ascii) : option N :=
  let n := N_of_ascii c in
  if ((48 <=? n) && (n <=? 57))%N then Some (n - 48)%N
  else if ((65 <=? n) && (n <=? 70))%N then Some (n - 55)%N
  else if ((97 <=? n) && (n <=? 102))%N then Some (n - 87)%N
  else None.

(** Four hexadecimal digits at the head of [s]. *)
Definition hex4 (s : string) : option (N * string) :=
  match s with
  | String a (String b (String c (String d r))) =>
      match hex_val a, hex_val b, hex_val c, hex_val d with
      | Some x, Some y, Some z, Some w => Some (((x * 16 + y) * 16 + z) * 16 + w, r)%N
      | _, _, _, _ => None
      end
  | _ => None
  end.

Definition byte (n : N) : string := String (ascii_of_N n) EmptyString.

(** UTF-8 of a code point; a lone surrogate is written in the same
    three-byte form. *)
Definition utf8 (cp : N) : string :=
  (if cp <? 128 then byte cp
   else if cp <? 2048 then byte (192 + cp / 64) ++ byte (128 + cp mod 64)
   else if cp <? 65536 then
     byte (224 + cp / 4096) ++ byte (128 + (cp / 64) mod 64) ++ byte (128 + cp mod 64)
   else
     byte (240 + cp / 262144) ++ byte (128 + (cp / 4096) mod 64)
       ++ byte (128 + (cp / 64) mod 64) ++ byte (128 + cp mod 64))%N.

(** A [\u] escape whose digits gave [hi]: a high surrogate directly followed
    by an escaped low surrogate makes one code point. *)
Definition code_point (hi : N) (r : string) : N * string :=
  if ((55296 <=? hi) && (hi <=? 56319))%N then
    match r with
    | String b (String u r1) =>
        if ((b =? backslash) && (u =? "u"))%char then
          match hex4 r1 with
          | Some (lo, r2) =>
              if ((56320 <=? lo) && (lo <=? 57343))%N
              then (65536 + (hi - 55296) * 1024 + (lo - 56320), r2)%N
              else (hi, r)
          | None => (hi, r)
          end
        else (hi, r)
    | _ => (hi, r)
    end
  else (hi, r).

(** The characters of a string literal after its opening quote, up to and
    including the closing quote. *)
Fixpoint chars (fuel : nat) (s : string) : option (string * string) :=
  match fuel, s with
  | S fuel, String c r =>
      if (c =? dquote)%char then Some (EmptyString, r)
      else if (c =? backslash)%char then
        match r with
        | String e r1 =>
            let simple (b : N) :=
              match chars fuel r1 with
              | Some (t, rest) => Some (byte b ++ t, rest)
              | None => None
              end in
            if (e =? dquote)%char then simple 34%N
            else if (e =? backslash)%char then simple 92%N
            else if (e =? "/")%char then simple 47%N
            else if (e =? "b")%char then simple 8%N
            else if (e =? "f")%char then simple 12%N
            else if (e =? "n")%char then simple 10%N
            else if (e =? "r")%char then simple 13%N
            else if (e =? "t")%char then simple 9%N
            else if (e =? "u")%char then
              match hex4 r1 with
              | Some (hi, r2) =>
                  let (cp, r3) := code_point hi r2 in
                  match chars fuel r3 with
                  | Some (t, rest) => Some (utf8 cp ++ t, rest)
                  | None => None
                  end
              | None => None
              end
            else None
        | EmptyString => None
        end
      else if (N_of_ascii c <? 32)%N then None
      else
        match chars fuel r with
        | Some (t, rest) => Some (String c t, rest)
        | None => None
        end
  | _, _ => None
  end.

(** *** Numbers *)

Definition prec : Z := 53.
Definition emax : Z := 1024.

(** The binary64 value nearest to [m * 10 ^ e10], ties to even.  Values that
    are certainly beyond the range on either side are answered without
    computing the power of ten. *)
Definition of_decimal (neg : bool) (m : N) (e10 : Z) : spec_float :=
  match m with
  | N0 => S754_zero neg
  | Npos mp =>
      if (310 <? e10)%Z then S754_infinity neg
      else if (e10 + Z.log2 (Zpos mp) + 1 <=? -324)%Z then S754_zero neg
      else if (0 <=? e10)%Z then
        binary_round prec emax neg (Z.to_pos (Zpos mp * 10 ^ e10)) 0
      else
        let '(q, e, l) := SFdiv_core_binary prec emax (Zpos mp) 0 (10 ^ (- e10)) 0 in
        binary_round_aux prec emax neg q e l
  end.

(** The decimal digits at the head of [s], appended to [acc]; the count of
    digits read is added to [n]. *)
Fixpoint digits (s : string) (acc : N) (n : nat) : N * nat * string :=
  match s with
  | String c r =>
      match digit_val c with
      | Some d => digits r (acc * 10 + d)%N (S n)
      | None => (acc, n, s)
      end
  | EmptyString => (acc, n, s)
  end.

(** [int]: a single [0], or a digit from 1 to 9 and more digits. *)
Definition int_part (s : string) : option (N * string) :=
  match s with
  | String c r =>
      match digit_val c with
      | Some 0%N => Some (0%N, r)
      | Some d => let '(m, _, rest) := digits r d 1 in Some (m, rest)
      | None => None
      end
  | EmptyString => None
  end.

(** [frac]: nothing, or a point and at least one digit.  Gives the mantissa
    with the fraction digits appended and their count. *)
Definition frac_part (m : N) (s : string) : option (N * nat * string) :=
  match s with
  | String c r =>
      if (c =? ".")%char then
        match digits r m 0 with
        | (_, O, _) => None
        | res => Some res
        end
      else Some (m, O, s)
  | EmptyString => Some (m, O, s)
  end.

(** [exp]: nothing, or [e] or [E], an optional sign and at least one digit. *)
Definition exp_part (s : string) : option (Z * string) :=
  match s with
  | String c r =>
      if ((c =? "e") || (c =? "E"))%char then
        let '(neg, r1) :=
          match r with
          | String sg r' =>
              if (sg =? "-")%char then (true, r')
              else if (sg =? "+")%char then (false, r')
              else (false, r)
          | EmptyString => (false, r)
          end in
        match digits r1 0 0 with
        | (_, O, _) => None
        | (x, _, rest) => Some (if neg then (- Z.of_N x)%Z else Z.of_N x, rest)
        end
      else Some (0%Z, s)
  | EmptyString => Some (0%Z, s)
  end.

Definition number (s : string) : option (spec_float * string) :=
  let '(neg, s1) :=
    match s with
    | String c r => if (c =? "-")%char then (true, r) else (false, s)
    | EmptyString => (false, s)
    end in
  match int_part s1 with
  | Some (ip, s2) =>
      match frac_part ip s2 with
      | Some (m, fl, s3) =>
          match exp_part s3 with
          | Some (e, s4) => Some (of_decimal neg m (e - Z.of_nat fl), s4)
          | None => None
          end
      | None => None
      end
  | None => None
  end.

(** *** Printing numbers *)

(** [v] is the positive rational [num / den].  [scaled num den k] is the
    integer part of [v * 10 ^ k]. *)
Definition scaled (num den k : Z) : Z :=
  (if 0 <=? k then (num * 10 ^ k) / den else num / (den * 10 ^ (- k)))%Z.

(** The [n] with [10 ^ (n - 1) <= v < 10 ^ n], found from an estimate. *)
Fixpoint magnitude (fuel : nat) (num den n : Z) : Z :=
  match fuel with
  | O => n
  | S fuel =>
      if (scaled num den (- n) >? 0)%Z then magnitude fuel num den (n + 1)%Z
      else if (scaled num den (1 - n) =? 0)%Z then magnitude fuel num den (n - 1)%Z
      else n
  end.

Definition round_trips (x : spec_float) (s n : Z) : bool :=
  match SFcompare (of_decimal false (Z.to_N s) n) x with
  | Some Eq => true
  | _ => false
  end.

(** The shortest digits: the least [k] for which some [s] of [k] digits has
    [s * 10 ^ (n - k)] round to [x], the nearest such [s], the even one on a
    tie.  Gives [s] and the position [n] of the decimal point. *)
Fixpoint shortest (fuel : nat) (x : spec_float) (num den n k : Z) : Z * Z :=
  let lo := scaled num den (k - n) in
  let hi := (lo + 1)%Z in
  let ok_lo := round_trips x lo (n - k) in
  let ok_hi := round_trips x hi (n - k) in
  (* twice the distance from [lo] to [v], against the gap between [lo] and [hi] *)
  let twice := (if 0 <=? k - n
                then Z.compare (2 * (num * 10 ^ (k - n) - lo * den)) den
                else Z.compare (2 * (num - lo * den * 10 ^ (n - k)))
                               (den * 10 ^ (n - k)))%Z in
  let pick_hi := if (hi =? 10 ^ k)%Z then (10 ^ (k - 1), n + 1)%Z else (hi, n) in
  match fuel with
  | O => (lo, n)
  | S fuel =>
      match ok_lo, ok_hi with
      | true, true =>
          match twice with
          | Lt => (lo, n)
          | Gt => pick_hi
          | Eq => if Z.even lo then (lo, n) else pick_hi
          end
      | true, false => (lo, n)
      | false, true => pick_hi
      | false, false => shortest fuel x num den n (k + 1)%Z
      end
  end.

Definition dec (z : Z) : string := NilZero.string_of_uint (N.to_uint (Z.to_N z)).

Fixpoint zeros (n : nat) : string :=
  match n with
  | O => EmptyString
  | S n => String "0" (zeros n)
  end.

(** [Number::toString] in radix 10. *)
Definition to_string (x : spec_float) : string :=
  match x with
  | S754_nan => "NaN"
  | S754_zero _ => "0"
  | S754_infinity neg => if neg then "-Infinity" else "Infinity"
  | S754_finite neg m e =>
      let num := (if 0 <=? e then Zpos m * 2 ^ e else Zpos m)%Z in
      let den := (if 0 <=? e then 1 else 2 ^ (- e))%Z in
      let est := ((Z.log2 num - Z.log2 den) * 30103 / 100000)%Z in
      let n0 := magnitude 8 num den est in
      let '(s, n) := shortest 17 (S754_finite false m e) num den n0 1 in
      let ds := dec s in
      let k := Z.of_nat (String.length ds) in
      let body :=
        (if (k <=? n) && (n <=? 21) then ds ++ zeros (Z.to_nat (n - k))
         else if (0 <? n) && (n <=? 21) then
           substring 0 (Z.to_nat n) ds ++ "."
             ++ substring (Z.to_nat n) (Z.to_nat (k - n)) ds
         else if (-6 <? n) && (n <=? 0) then "0." ++ zeros (Z.to_nat (- n)) ++ ds
         else
           let ex := (if 0 <=? n - 1 then "+" else "-") ++ dec (Z.abs (n - 1)) in
           if k =? 1 then ds ++ "e" ++ ex
           else substring 0 1 ds ++ "." ++ substring 1 (Z.to_nat (k - 1)) ds
                  ++ "e" ++ ex)%Z in
      if neg then "-" ++ body else body
  end.

(** *** Values *)

Section Containers.
Variable value : string -> option (JsValue * string).

(** The elements of an array after its first element was read as [acc]:
    a comma and another element, or the closing bracket. *)
Fixpoint elements (fuel : nat) (s : string) (acc : list JsValue)
  : option (JsValue * string) :=
  match fuel, skip_ws s with
  | S fuel, String c r =>
      if (c =? "]")%char then Some (JArr (rev acc), r)
      else if (c =? ",")%char then
        match value (skip_ws r) with
        | Some (v, rest) => elements fuel rest (v :: acc)
        | None => None
        end
      else None
  | _, _ => None
  end.

(** One member [key : value] at the head of [s]. *)
Definition member (s : string) : option (string * JsValue * string) :=
  match s with
  | String c r =>
      if (c =? dquote)%char then
        match chars (String.length r) r with
        | Some (k, r1) =>
            match skip_ws r1 with
            | String colon r2 =>
                if (colon =? ":")%char then
                  match value (skip_ws r2) with
                  | Some (v, rest) => Some (k, v, rest)
                  | None => None
                  end
                else None
            | EmptyString => None
            end
        | None => None
        end
      else None
  | EmptyString => None
  end.

(** The members of an object after its first member was stored in [acc]. *)
Fixpoint members (fuel : nat) (s : string) (acc : list (string * JsValue))
  : option (JsValue * string) :=
  match fuel, skip_ws s with
  | S fuel, String c r =>
      if (c =? "}")%char then Some (JObj acc, r)
      else if (c =? ",")%char then
        match member (skip_ws r) with
        | Some (k, v, rest) => members fuel rest (define_prop k v acc)
        | None => None
        end
      else None
  | _, _ => None
  end.

End Containers.

(** A value at the head of [s], which starts with no white space. *)
Fixpoint value (fuel : nat) (s : string) : option (JsValue * string) :=
  match fuel, s with
  | S fuel, String c r =>
      if (c =? "{")%char then
        match skip_ws r with
        | String c1 r1 =>
            if (c1 =? "}")%char then Some (JObj [], r1)
            else
              match member (value fuel) (skip_ws r) with
              | Some (k, v, rest) =>
                  members (value fuel) (String.length rest) rest [(k, v)]
              | None => None
              end
        | EmptyString => None
        end
      else if (c =? "[")%char then
        match skip_ws r with
        | String c1 r1 =>
            if (c1 =? "]")%char then Some (JArr [], r1)
            else
              match value fuel (skip_ws r) with
              | Some (v, rest) =>
                  elements (value fuel) (String.length rest) rest [v]
              | None => None
              end
        | EmptyString => None
        end
      else if (c =? dquote)%char then
        match chars (String.length r) r with
        | Some (t, rest) => Some (JStr t, rest)
        | None => None
        end
      else
        match strip_prefix "true" s, strip_prefix "false" s, strip_prefix "null" s with
        | Some rest, _, _ => Some (JBool true, rest)
        | _, Some rest, _ => Some (JBool false, rest)
        | _, _, Some rest => Some (JNull, rest)
        | None, None, None =>
            match number s with
            | Some (x, rest) => Some (JNum x, rest)
            | None => None
            end
        end
  | _, _ => None
  end.

(** [JSON.parse(text)]: one value between optional white space. *)
Definition parse (text : string) : option JsValue :=
  let s := skip_ws text in
  match value (String.length s) s with
  | Some (v, rest) =>
      match skip_ws rest with
      | EmptyString => Some v
      | String _ _ => None
      end
  | None => None
  end.

End Reference.

Definition reference_host : Host :=
  {| JSON_parse := Reference.parse;
     Number_toString := Reference.to_string;
     NEXT_PUBLIC_BACKEND_URL := None |}.

(** ** Scenarios *)

(** Frames and traces used below to run the panel on [reference_host]. *)
Module Scenario.
Import Reference.

Definition result_frame (step prompt result : string) : string :=
  wire ("{'type':'result','step':" ++ step ++ ",'prompt':'" ++ prompt
          ++ "','result':'" ++ result ++ "'}").

Definition status_frame (message : string) : string :=
  wire ("{'type':'status','message':'" ++ message ++ "'}").

Definition error_frame (message : string) : string :=
  wire ("{'type':'error','message':'" ++ message ++ "'}").

Definition nextStep_frame : string := wire "{'type':'nextStep'}".

Definition heartbeat_frame : string := wire "{'type':'heartbeat','seq':3}".

Definition malformed_frame : string := "{oops".

(** The payload [JSON.parse] makes of [result_frame], for a step number
    given as a binary64 value. *)
Definition result_payload (step : spec_float) (prompt result : string) : JsValue :=
  JObj [("type", JStr "result"); ("step", JNum step);
        ("prompt", JStr prompt); ("result", JStr result)].

Definition one : spec_float := S754_finite false 4503599627370496 (-52).
Definition two : spec_float := S754_finite false 4503599627370496 (-51).

Definition three : spec_float := S754_finite false 6755399441055744 (-51).

(** A run of workflow 7 whose channel has opened. *)
Definition started : list Event := [RunClick (Some 7%Z); WsOpen 0].

(** The panel after [evs] happened to a freshly mounted one. *)
Definition after (evs : list Event) : Panel :=
  run (H := reference_host) mounted evs.

Definition receives (ws : nat) (data : string) (p : Panel) : Outcome :=
  onmessage (H := reference_host) ws data p.

End Scenario.

(** ** What the panel renders *)

Definition dquote_text : string := String "034"%char EmptyString.

(** The parts of the rendering that depend on the run: the run button and
    the live status box.  The state updates of one handler are rendered
    together, so a rendering shows the state a handler left. *)
Record View := mkView {
  button_disabled : bool;
  button_label : string;
  live_status : option JsValue
}.

(** [workflowName] is [selectedWorkflow?.name], absent when no workflow of
    the list has the selected id. *)
Definition render (selectedWorkflowId : option Z) (workflowName : option string)
    (p : Panel) : View :=
  {| button_disabled := negb (id_truthy selectedWorkflowId) || isWorkflowRunning p;
     button_label :=
       if isWorkflowRunning p then "Running..."
       else "Run " ++ dquote_text
              ++ match workflowName with
                 | Some n => if n =? "" then "Workflow" else n
                 | None => "Workflow"
                 end
              ++ dquote_text;
     live_status :=
       if isWorkflowRunning p then Some (currentStatus p) else None |}.

Section Counting.
Context `{Host}.

(** The [nextStep] frames among [evs] that arrive on socket [ws]. *)
Fixpoint nextStep_requests (ws : nat) (evs : list Event) : nat :=
  match evs with
  | [] => 0
  | WsMessage ws' data :: evs' =>
      (if (ws' =? ws)%nat && frame_is "nextStep" data then 1 else 0)
      + nextStep_requests ws evs'
  | _ :: evs' => nextStep_requests ws evs'
  end.


End Counting.

(** ** The workflow designer *)

(** [String.prototype.trim] on the UTF-8 bytes of a text: the white space
    and line terminators of ECMAScript are the six ASCII characters U+0009
    to U+000D and U+0020, and U+00A0, U+1680, U+2000 to U+200A, U+2028,
    U+2029, U+202F, U+205F, U+3000 and U+FEFF. *)
Module Trim.

Definition space1 (b : N) : bool :=
  ((9 <=? b) && (b <=? 13) || (b =? 32))%N.

Definition space2 (b1 b2 : N) : bool := ((b1 =? 194) && (b2 =? 160))%N.

Definition space3 (b1 b2 b3 : N) : bool :=
  ((b1 =? 225) && (b2 =? 154) && (b3 =? 128)
   || (b1 =? 226) && (b2 =? 128)
        && ((128 <=? b3) && (b3 <=? 138) || (b3 =? 168) || (b3 =? 169) || (b3 =? 175))
   || (b1 =? 226) && (b2 =? 129) && (b3 =? 159)
   || (b1 =? 227) && (b2 =? 128) && (b3 =? 128)
   || (b1 =? 239) && (b2 =? 187) && (b3 =? 191))%N.

Fixpoint trimStart (l : list N) : list N :=
  match l with
  | [] => []
  | b1 :: r1 =>
      if space1 b1 then trimStart r1
      else
        match r1 with
        | [] => l
        | b2 :: r2 =>
            if space2 b1 b2 then trimStart r2
            else
              match r2 with
              | [] => l
              | b3 :: r3 => if space3 b1 b2 b3 then trimStart r3 else l
              end
        end
  end.

(** The same from the end, on the reversed bytes: a lead byte tells where
    a character starts, so the last character is recognised by its bytes. *)
Fixpoint trimEnd_rev (l : list N) : list N :=
  match l with
  | [] => []
  | b1 :: r1 =>
      if space1 b1 then trimEnd_rev r1
      else
        match r1 with
        | [] => l
        | b2 :: r2 =>
            if space2 b2 b1 then trimEnd_rev r2
            else
              match r2 with
              | [] => l
              | b3 :: r3 => if space3 b3 b2 b1 then trimEnd_rev r3 else l
              end
        end
  end.

Definition bytes (s : string) : list N := map N_of_ascii (list_ascii_of_string s).

Definition text (l : list N) : string := string_of_list_ascii (map ascii_of_N l).

Definition trim (s : string) : string :=
  text (rev (trimEnd_rev (rev (trimStart (bytes s))))).

End Trim.

Module Designer.

Record WorkflowStep := mkStep {
  step_id : Z;
  step_number : Z;
  prompt : string
}.

(** [steps] is read behind [?.] and [&&], so it may be missing. *)
Record Workflow := mkWorkflow {
  id : Z;
  name : string;
  description : string;
  steps : option (list WorkflowStep)
}.

(** The form state of [WorkflowDesigner], with what it did to the outside:
    the alerts raised and the calls of [onUpdate]. *)
Record Form := mkForm {
  newWorkflowName : string;
  newWorkflowDesc : string;
  newStepPrompt : string;
  raised : list string;
  onUpdate_calls : nat
}.

Definition raise (msg : string) (f : Form) : Form :=
  {| newWorkflowName := newWorkflowName f;
     newWorkflowDesc := newWorkflowDesc f;
     newStepPrompt := newStepPrompt f;
     raised := (raised f ++ [msg])%list;
     onUpdate_calls := onUpdate_calls f |}.

Definition setNewStepPrompt (s : string) (f : Form) : Form :=
  {| newWorkflowName := newWorkflowName f;
     newWorkflowDesc := newWorkflowDesc f;
     newStepPrompt := s;
     raised := raised f;
     onUpdate_calls := onUpdate_calls f |}.

Definition onUpdate (f : Form) : Form :=
  {| newWorkflowName := newWorkflowName f;
     newWorkflowDesc := newWorkflowDesc f;
     newStepPrompt := newStepPrompt f;
     raised := raised f;
     onUpdate_calls := S (onUpdate_calls f) |}.

(** The request [fetch] is given: the URL and the object serialised as the
    body of the [POST]. *)
Inductive Request :=
| PostStep (url : string) (step_number : Z) (prompt : string).

(** How a [fetch] ends: it rejects, or it answers with [response.ok] and a
    body that the handler then reads, with [response.json()] when [ok] and
    with [response.text()] otherwise; [body_reads] tells whether that read
    succeeds. *)
Inductive Reply :=
| Rejected
| Answered (ok : bool) (body_reads : bool).

(** An [async] handler runs to its first [await]: it is done, or it has
    issued a request and goes on from the reply, in the state the form has
    then. *)
Inductive Started :=
| Done (f : Form)
| Awaiting (r : Request) (resume : Reply -> Form -> Form).

(** [workflows.find(wf => wf.id === selectedWorkflowId)]. *)
Definition find_workflow (workflows : list Workflow) (selectedWorkflowId : Z)
  : option Workflow :=
  find (fun wf => (id wf =? selectedWorkflowId)%Z) workflows.

(** [workflow.steps?.length || 0]. *)
Definition steps_length (wf : Workflow) : nat :=
  match steps wf with
  | Some l => List.length l
  | None => 0
  end.

Section Handlers.
Context `{Host}.

(** [handleAddStep]. *)
Definition handleAddStep (workflows : list Workflow) (selectedWorkflowId : option Z)
    (f : Form) : Started :=
  match selectedWorkflowId with
  | Some sel =>
      if negb (id_truthy selectedWorkflowId)
         || negb (ToBoolean (JStr (Trim.trim (newStepPrompt f))))
      then Done (raise "Please select a workflow and enter a prompt for the step." f)
      else
        match find_workflow workflows sel with
        | None => Done f
        | Some workflow =>
            let nextStepNumber := (Z.of_nat (steps_length workflow) + 1)%Z in
            Awaiting
              (PostStep (backendApiUrl ++ "/api/workflows/" ++ id_text sel ++ "/steps")
                        nextStepNumber (newStepPrompt f))
              (fun reply f' =>
                 match reply with
                 | Answered true true =>
                     let f' := setNewStepPrompt "" f' in
                     let f' := onUpdate f' in
                     raise ("Step " ++ id_text nextStepNumber ++ " added successfully!") f'
                 | Answered false true => raise "Failed to add step." f'
                 | Answered _ false | Rejected =>
                     raise "Failed to connect to the backend. Please check your connection." f'
                 end)
        end
  | None => Done (raise "Please select a workflow and enter a prompt for the step." f)
  end.

End Handlers.

(** [Array.prototype.sort] with the comparator
    [(a, b) => a.step_number - b.step_number].  The sort is stable and the
    comparator is a consistent order on integers, which fixes the result;
    it is computed here by insertion. *)
Fixpoint insert (a : WorkflowStep) (l : list WorkflowStep) : list WorkflowStep :=
  match l with
  | [] => [a]
  | b :: l' =>
      if (step_number a - step_number b <=? 0)%Z then a :: l
      else b :: insert a l'
  end.

Fixpoint sort (l : list WorkflowStep) : list WorkflowStep :=
  match l with
  | [] => []
  | a :: l' => insert a (sort l')
  end.

(** The steps listed under a workflow: none when [steps] is missing or
    empty, otherwise the sorted steps. *)
Definition listed_steps (wf : Workflow) : list WorkflowStep :=
  match steps wf with
  | Some l => sort l
  | None => []
  end.

(** The steps of [l] whose number is [n], in the order of [l]. *)
Definition numbered (n : Z) (l : list WorkflowStep) : list WorkflowStep :=
  filter (fun s => (step_number s =? n)%Z) l.

Definition by_number (a b : WorkflowStep) : Prop :=
  (step_number a <= step_number b)%Z.

End Designer.

(** Data for the examples of the designer. *)
Module Sample.
Import Designer.

Definition title : WorkflowStep := mkStep 11 1 "Write a title".
Definition body : WorkflowStep := mkStep 12 2 "Write a body".
Definition recap : WorkflowStep := mkStep 13 2 "Write a recap".

Definition blog : Workflow := mkWorkflow 7 "Blog" "Posts" (Some [body; title]).

Definition typed (prompt : string) : Form := mkForm "" "" prompt [] 0.

(** [reference_host] built against a backend on the developer's machine. *)
Definition local_host : Host :=
  {| JSON_parse := Reference.parse;
     Number_toString := Reference.to_string;
     NEXT_PUBLIC_BACKEND_URL := Some "http://localhost:8000" |}.

End Sample.

Ltac break_match :=
  match goal with
  | |- context [match ?x with _ => _ end] =>
      match x with
      | context [match _ with _ => _ end] => fail 1
      | _ => destruct x eqn:?
      end
  end.

(** * Properties *)

(** ** How each kind of frame is handled *)

Section FrameLemmas.
Context `{Host}.

Lemma strict_eq_str_true (v : JsValue) (k : string) :
  strict_eq_str v k = true <-> v = JStr k.
Proof.
  destruct v; simpl; split; intros E; try discriminate.
  - apply String.eqb_eq in E. now subst.
  - injection E as ->. apply String.eqb_refl.
Qed.

(** A frame of kind [k] parsed, and its [type] is the string [k]. *)
Lemma frame_is_inv (k data : string) :
  frame_is k data = true ->
  exists d, JSON_parse data = Some d /\ Get d "type" = inr (JStr k).
Proof.
  unfold frame_is. destruct (JSON_parse data) as [d|]; [|discriminate].
  destruct (Get d "type") as [e|t] eqn:G; [discriminate|].
  intros E. apply strict_eq_str_true in E. subst t. now exists d.
Qed.

(** Property access throws on [null] and [undefined] only, whatever the key. *)
Lemma Get_defined (d : JsValue) (k k' : string) (t : JsValue) :
  Get d k = inr t -> exists v, Get d k' = inr v.
Proof. destruct d; simpl; intros E; try discriminate; eauto. Qed.

Lemma frame_is_exclusive (k k' data : string) :
  frame_is k data = true -> k <> k' -> frame_is k' data = false.
Proof.
  intros F N. destruct (frame_is_inv _ _ F) as (d & P & G).
  unfold frame_is. rewrite P, G. simpl.
  destruct (String.eqb_spec k k'); congruence.
Qed.

Lemma onmessage_malformed (ws : nat) (data : string) (p : Panel) :
  JSON_parse data = None -> onmessage ws data p = Threw SyntaxError.
Proof. intros P. unfold onmessage. now rewrite P. Qed.

Lemma onmessage_status (ws : nat) (data : string) (p : Panel) :
  frame_is "status" data = true ->
  exists d m, JSON_parse data = Some d /\ Get d "message" = inr m /\
    onmessage ws data p = Returned (setCurrentStatus m p).
Proof.
  intros F. destruct (frame_is_inv _ _ F) as (d & P & G).
  destruct (Get_defined d "type" "message" _ G) as (m & M).
  exists d, m. repeat split; trivial.
  unfold onmessage. rewrite P, G. simpl. now rewrite M.
Qed.

Lemma onmessage_result (ws : nat) (data : string) (p : Panel) :
  frame_is "result" data = true ->
  exists d r, JSON_parse data = Some d /\ Get d "result" = inr r /\
    onmessage ws data p =
      Returned (setWorkflowResults (fun prev => (prev ++ [d])%list)
                                   (set_lastStepResultRef r p)).
Proof.
  intros F. destruct (frame_is_inv _ _ F) as (d & P & G).
  destruct (Get_defined d "type" "result" _ G) as (r & R).
  exists d, r. repeat split; trivial.
  unfold onmessage. rewrite P, G. simpl. now rewrite R.
Qed.

Lemma onmessage_nextStep (ws : nat) (data : string) (p : Panel) :
  frame_is "nextStep" data = true ->
  onmessage ws data p =
    if ToBoolean (lastStepResultRef p)
    then ws_send ws (stepInput (lastStepResultRef p)) p
    else Returned p.
Proof.
  intros F. destruct (frame_is_inv _ _ F) as (d & P & G).
  unfold onmessage. rewrite P, G. reflexivity.
Qed.

Lemma onmessage_error (ws : nat) (data : string) (p : Panel) :
  frame_is "error" data = true ->
  exists d m, JSON_parse data = Some d /\ Get d "message" = inr m /\
    onmessage ws data p =
      match ToString m with
      | inl e => Threw e
      | inr text =>
          Returned (setIsWorkflowRunning false
                      (setCurrentStatus (JStr ("Error: " ++ text)) p))
      end.
Proof.
  intros F. destruct (frame_is_inv _ _ F) as (d & P & G).
  destruct (Get_defined d "type" "message" _ G) as (m & M).
  exists d, m. repeat split; trivial.
  unfold onmessage. rewrite P, G. simpl. rewrite M. simpl.
  destruct (ToString m); reflexivity.
Qed.

(** A frame that parses to a value other than [null] and has none of the
    four types falls through the whole chain. *)
Lemma onmessage_other (ws : nat) (data : string) (d t : JsValue) (p : Panel) :
  JSON_parse data = Some d -> Get d "type" = inr t ->
  ~ In t [JStr "status"; JStr "result"; JStr "nextStep"; JStr "error"] ->
  onmessage ws data p = Returned p.
Proof.
  intros P G N. unfold onmessage. rewrite P, G. simpl bind.
  assert (E : forall k, In (JStr k) [JStr "status"; JStr "result"; JStr "nextStep"; JStr "error"] ->
                        strict_eq_str t k = false).
  { intros k I. destruct (strict_eq_str t k) eqn:S; trivial.
    apply strict_eq_str_true in S. subst t. contradiction. }
  rewrite !E by (simpl; tauto). reflexivity.
Qed.

End FrameLemmas.

(** ** What a step does to the results and to the last result *)

Section StepLemmas.
Context `{Host}.

Lemma ws_send_keeps (ws : nat) (c : Command) (p : Panel) :
  let p' := settle p (ws_send ws c p) in
  isWorkflowRunning p' = isWorkflowRunning p /\
  workflowResults p' = workflowResults p /\
  currentStatus p' = currentStatus p /\
  lastStepResultRef p' = lastStepResultRef p /\
  wsRef p' = wsRef p.
Proof.
  unfold ws_send. destruct (nth_error (sockets p) ws) as [w|]; simpl; [|tauto].
  destruct (readyState w); simpl; tauto.
Qed.

(** A frame that is not a result frame leaves the results and the last
    result alone, whether its handler returns or throws. *)
Lemma other_frame_keeps (ws : nat) (data : string) (p : Panel) :
  frame_is "result" data = false ->
  let p' := settle p (onmessage ws data p) in
  workflowResults p' = workflowResults p /\
  lastStepResultRef p' = lastStepResultRef p.
Proof.
  unfold frame_is, onmessage.
  destruct (JSON_parse data) as [d|]; simpl; [|tauto].
  destruct (Get d "type") as [e|t]; simpl; [tauto|].
  intros R. rewrite R.
  destruct (strict_eq_str t "status").
  { destruct (Get d "message"); simpl; tauto. }
  destruct (strict_eq_str t "nextStep").
  { destruct (ToBoolean (lastStepResultRef p)); simpl; [|tauto].
    pose proof (ws_send_keeps ws (stepInput (lastStepResultRef p)) p) as K.
    simpl in K. tauto. }
  destruct (strict_eq_str t "error"); simpl; [|tauto].
  destruct (Get d "message") as [e|m]; simpl; [tauto|].
  destruct (ToString m); simpl; tauto.
Qed.

Lemma result_frame_appends (ws : nat) (data : string) (d : JsValue) (p : Panel) :
  JSON_parse data = Some d -> frame_is "result" data = true ->
  workflowResults (step p (WsMessage ws data)) = (workflowResults p ++ [d])%list.
Proof.
  intros P F. destruct (onmessage_result ws data p F) as (d' & r & P' & _ & E).
  simpl. rewrite E. simpl. congruence.
Qed.

Lemma result_frame_sets_last (ws : nat) (data : string) (d r : JsValue) (p : Panel) :
  JSON_parse data = Some d -> frame_is "result" data = true ->
  Get d "result" = inr r ->
  lastStepResultRef (step p (WsMessage ws data)) = r.
Proof.
  intros P F G. destruct (onmessage_result ws data p F) as (d' & r' & P' & G' & E).
  simpl. rewrite E. simpl. congruence.
Qed.

Lemma handleRunWorkflow_idle (sel : option Z) (p : Panel) :
  id_truthy sel = false ->
  handleRunWorkflow sel p = alert "Please select a workflow to run." p.
Proof.
  intros T. unfold handleRunWorkflow. destruct sel; [|reflexivity].
  now rewrite T.
Qed.

Lemma handleRunWorkflow_resets (sel : option Z) (p : Panel) :
  id_truthy sel = true ->
  workflowResults (handleRunWorkflow sel p) = [] /\
  lastStepResultRef (handleRunWorkflow sel p) = JStr "".
Proof.
  intros T. unfold handleRunWorkflow. destruct sel; [|discriminate].
  rewrite T. simpl. tauto.
Qed.

(** Apart from the start of a run, a step appends the payload of a result
    frame and otherwise keeps the results. *)
Lemma step_results (p : Panel) (ev : Event) :
  starts_run ev = false ->
  workflowResults (step p ev) = (workflowResults p ++ result_payloads [ev])%list.
Proof.
  intros S. destruct ev as [sel|ws|ws data|ws failed|]; simpl in *.
  - rewrite handleRunWorkflow_idle by trivial. simpl. now rewrite app_nil_r.
  - now rewrite app_nil_r.
  - destruct (frame_is "result" data) eqn:F.
    + destruct (frame_is_inv _ _ F) as (d & P & _). rewrite P.
      apply (result_frame_appends ws data d p P F).
    + destruct (other_frame_keeps ws data p F) as [K _]. simpl in K. rewrite K.
      destruct (JSON_parse data); now rewrite app_nil_r.
  - destruct failed; simpl; now rewrite app_nil_r.
  - rewrite app_nil_r. unfold beforeunload. repeat break_match; reflexivity.
Qed.

Lemma step_last (p : Panel) (ev : Event) :
  starts_run ev = false -> is_result_frame ev = false ->
  lastStepResultRef (step p ev) = lastStepResultRef p.
Proof.
  intros S R. destruct ev as [sel|ws|ws data|ws failed|]; simpl in *.
  - now rewrite handleRunWorkflow_idle.
  - reflexivity.
  - now destruct (other_frame_keeps ws data p R).
  - now destruct failed.
  - unfold beforeunload. repeat break_match; reflexivity.
Qed.

Lemma result_payloads_app (evs1 evs2 : list Event) :
  result_payloads (evs1 ++ evs2) = (result_payloads evs1 ++ result_payloads evs2)%list.
Proof.
  induction evs1 as [|ev evs1 IH]; [reflexivity|].
  destruct ev; simpl; trivial.
  destruct (JSON_parse data); trivial.
  destruct (frame_is "result" data); simpl; now rewrite IH.
Qed.

Lemma run_app (p : Panel) (evs1 evs2 : list Event) :
  run p (evs1 ++ evs2) = run (run p evs1) evs2.
Proof. apply fold_left_app. Qed.

Lemma run_results (evs : list Event) (p : Panel) :
  forallb (fun ev => negb (starts_run ev)) evs = true ->
  workflowResults (run p evs) = (workflowResults p ++ result_payloads evs)%list.
Proof.
  revert p. induction evs as [|ev evs IH]; intros p A.
  - simpl. now rewrite app_nil_r.
  - cbn [forallb] in A. apply andb_true_iff in A as [A1 A2].
    apply negb_true_iff in A1.
    change (ev :: evs) with ([ev] ++ evs)%list.
    rewrite run_app, result_payloads_app, app_assoc.
    rewrite IH by trivial. f_equal.
    apply (step_results p ev A1).
Qed.

Lemma run_last (evs : list Event) (p : Panel) :
  forallb (fun ev => negb (starts_run ev || is_result_frame ev)) evs = true ->
  lastStepResultRef (run p evs) = lastStepResultRef p.
Proof.
  revert p. induction evs as [|ev evs IH]; intros p A; [reflexivity|].
  cbn [forallb] in A. apply andb_true_iff in A as [A1 A2].
  apply negb_true_iff, orb_false_iff in A1 as [S R].
  change (ev :: evs) with ([ev] ++ evs)%list.
  rewrite run_app, IH by trivial. now apply step_last.
Qed.

End StepLemmas.

(** ** Sockets *)

Lemma nth_error_update_socket_eq (l : list WebSocket) (i : nat)
      (f : WebSocket -> WebSocket) (w : WebSocket) :
  nth_error l i = Some w -> nth_error (update_socket i f l) i = Some (f w).
Proof.
  revert i. induction l as [|a l IH]; intros [|i]; simpl; try discriminate.
  - now intros [= ->].
  - apply IH.
Qed.

Lemma nth_error_update_socket_neq (l : list WebSocket) (i j : nat)
      (f : WebSocket -> WebSocket) :
  i <> j -> nth_error (update_socket i f l) j = nth_error l j.
Proof.
  revert i j. induction l as [|a l IH]; intros [|i] [|j] N; simpl; trivial.
  - contradiction.
  - apply IH. congruence.
Qed.

Lemma ws_send_open (ws : nat) (c : Command) (p : Panel) :
  state_of ws p = Some OPEN ->
  exists p', ws_send ws c p = Returned p' /\
    sent_on ws p' = (sent_on ws p ++ [c])%list /\
    (forall other, other <> ws -> sent_on other p' = sent_on other p) /\
    (forall any, state_of any p' = state_of any p).
Proof.
  unfold state_of, ws_send, sent_on.
  destruct (nth_error (sockets p) ws) as [w|] eqn:E; simpl; [|discriminate].
  intros [= O]. rewrite O. eexists. split; [reflexivity|]. simpl.
  rewrite (nth_error_update_socket_eq _ _ _ _ E). simpl.
  split; [reflexivity|]. split.
  - intros other N. now rewrite nth_error_update_socket_neq by congruence.
  - intros any. destruct (Nat.eq_dec ws any) as [<-|N].
    + rewrite (nth_error_update_socket_eq _ _ _ _ E), E. simpl. congruence.
    + now rewrite nth_error_update_socket_neq.
Qed.

Section TraceLemmas.
Context `{Host}.

(** Only the start of a run sets the running flag. *)
Lemma step_stays_idle (p : Panel) (ev : Event) :
  isWorkflowRunning p = false -> starts_run ev = false ->
  isWorkflowRunning (step p ev) = false.
Proof.
  intros I S. destruct ev as [sel|ws|ws data|ws failed|]; simpl in *; trivial.
  - now rewrite handleRunWorkflow_idle.
  - unfold onmessage. destruct (JSON_parse data) as [d|]; simpl; trivial.
    destruct (Get d "type") as [e|t]; simpl; trivial.
    destruct (strict_eq_str t "status").
    { destruct (Get d "message"); simpl; trivial. }
    destruct (strict_eq_str t "result").
    { destruct (Get d "result"); simpl; trivial. }
    destruct (strict_eq_str t "nextStep").
    { destruct (ToBoolean (lastStepResultRef p)); simpl; trivial.
      pose proof (ws_send_keeps ws (stepInput (lastStepResultRef p)) p) as K.
      simpl in K. destruct K as [K _]. congruence. }
    destruct (strict_eq_str t "error"); simpl; trivial.
    destruct (Get d "message") as [e|m]; simpl; trivial.
    destruct (ToString m); simpl; trivial.
  - unfold beforeunload. repeat break_match; trivial.
Qed.

(** Without a result frame the last result stays the empty string a start
    put there, also across further starts. *)
Lemma run_last_absent (evs : list Event) (p : Panel) :
  lastStepResultRef p = JStr "" ->
  forallb (fun ev => negb (is_result_frame ev)) evs = true ->
  lastStepResultRef (run p evs) = JStr "".
Proof.
  revert p. induction evs as [|ev evs IH]; intros p L A; [exact L|].
  cbn [forallb] in A. apply andb_true_iff in A as [A1 A2].
  apply negb_true_iff in A1.
  change (ev :: evs) with ([ev] ++ evs)%list. rewrite run_app.
  apply IH; trivial. change (run p [ev]) with (step p ev).
  destruct (starts_run ev) eqn:S.
  - destruct ev; try discriminate. simpl in *.
    now apply handleRunWorkflow_resets.
  - now rewrite step_last.
Qed.

Lemma result_payloads_other (ev : Event) :
  is_result_frame ev = false -> result_payloads [ev] = [].
Proof.
  destruct ev; simpl; trivial. intros ->. now destruct (JSON_parse data).
Qed.

(** Until a result frame is handled, a freshly reset session stays reset. *)
Lemma run_stays_reset (evs : list Event) (p : Panel) :
  workflowResults p = [] -> lastStepResultRef p = JStr "" ->
  forallb (fun ev => negb (is_result_frame ev)) evs = true ->
  workflowResults (run p evs) = [] /\ lastStepResultRef (run p evs) = JStr "".
Proof.
  intros R L A. split; [|now apply run_last_absent].
  revert p R L A. induction evs as [|ev evs IH]; intros p R L A; [exact R|].
  cbn [forallb] in A. apply andb_true_iff in A as [A1 A2].
  apply negb_true_iff in A1.
  change (ev :: evs) with ([ev] ++ evs)%list. rewrite run_app.
  change (run p [ev]) with (step p ev).
  destruct (starts_run ev) eqn:S.
  - destruct ev; try discriminate. simpl in S.
    destruct (handleRunWorkflow_resets _ p S). now apply IH.
  - apply IH; trivial.
    + now rewrite step_results, result_payloads_other, R.
    + now rewrite step_last.
Qed.

End TraceLemmas.

(** * The run protocol *)

Section Protocol.
Context `{Host}.

(** C1, as the code has it.  After a result frame whose [result] value [R]
    is truthy (for a string: not empty), and any further events that are
    neither a result frame nor the start of a run, a [nextStep] frame on an
    open channel transmits exactly one command on that channel,
    [stepInput] with content [R], and nothing on any other channel; the
    results and the last result are as before. *)
Theorem chaining_forwards_nonempty_result
    (p : Panel) (ws : nat) (data next : string) (d R : JsValue) (evs : list Event) :
  JSON_parse data = Some d ->
  frame_is "result" data = true ->
  Get d "result" = inr R ->
  ToBoolean R = true ->
  forallb (fun ev => negb (starts_run ev || is_result_frame ev)) evs = true ->
  frame_is "nextStep" next = true ->
  state_of ws (run (step p (WsMessage ws data)) evs) = Some OPEN ->
  sent_on ws (step (run (step p (WsMessage ws data)) evs) (WsMessage ws next))
    = (sent_on ws (run (step p (WsMessage ws data)) evs) ++ [stepInput R])%list
  /\ (forall other, other <> ws ->
        sent_on other (step (run (step p (WsMessage ws data)) evs) (WsMessage ws next))
          = sent_on other (run (step p (WsMessage ws data)) evs))
  /\ workflowResults (step (run (step p (WsMessage ws data)) evs) (WsMessage ws next))
       = workflowResults (run (step p (WsMessage ws data)) evs)
  /\ lastStepResultRef (step (run (step p (WsMessage ws data)) evs) (WsMessage ws next))
       = R.
Proof.
  intros P F G T A N O.
  set (p1 := run (step p (WsMessage ws data)) evs) in *.
  assert (L : lastStepResultRef p1 = R).
  { unfold p1. rewrite run_last by trivial.
    apply (result_frame_sets_last ws data d R p P F G). }
  cbn [step]. rewrite (onmessage_nextStep ws next p1 N), L, T.
  destruct (ws_send_open ws (stepInput R) p1 O) as (p2 & E & S1 & S2 & _).
  pose proof (ws_send_keeps ws (stepInput R) p1) as K.
  rewrite E in *. simpl in *.
  destruct K as (_ & K1 & _ & K2 & _). repeat split; trivial. congruence.
Qed.

(** C2, as the code has it.  An [error] frame whose message is a string
    clears the running flag and sets the status to ["Error: "] followed by
    the message; handling it transmits nothing and keeps the results and the
    last result.  When the channel closes afterwards the running flag stays
    cleared and the status becomes the text of the close handler. *)
Theorem error_frame_then_close
    (p : Panel) (ws : nat) (data : string) (d : JsValue) (message : string)
    (failed : bool) :
  JSON_parse data = Some d ->
  frame_is "error" data = true ->
  Get d "message" = inr (JStr message) ->
  onmessage ws data p = Returned (step p (WsMessage ws data))
  /\ isWorkflowRunning (step p (WsMessage ws data)) = false
  /\ currentStatus (step p (WsMessage ws data)) = JStr ("Error: " ++ message)
  /\ sockets (step p (WsMessage ws data)) = sockets p
  /\ workflowResults (step p (WsMessage ws data)) = workflowResults p
  /\ lastStepResultRef (step p (WsMessage ws data)) = lastStepResultRef p
  /\ isWorkflowRunning (step (step p (WsMessage ws data)) (WsClosed ws failed)) = false
  /\ currentStatus (step (step p (WsMessage ws data)) (WsClosed ws failed))
       = JStr "Workflow finished. Connection closed.".
Proof.
  intros P F G.
  destruct (onmessage_error ws data p F) as (d' & m & P' & G' & E).
  assert (d' = d) by congruence. subst d'.
  assert (m = JStr message) by congruence. subst m.
  cbn [step]. rewrite E. simpl. destruct failed; repeat split; reflexivity.
Qed.

(** C3, as the code has it.  On a frame whose text does not parse, the
    message handler throws [SyntaxError] out of the handler, and the state
    of the panel is exactly what it was: no status is set, the running flag
    is kept, nothing is transmitted. *)
Theorem malformed_frame_throws
    (p : Panel) (ws : nat) (data : string) :
  JSON_parse data = None ->
  onmessage ws data p = Threw SyntaxError /\ step p (WsMessage ws data) = p.
Proof.
  intros P. cbn [step]. rewrite (onmessage_malformed ws data p P). now split.
Qed.

(** C4, as the code has it.  Once the running flag is cleared (by an
    [error] frame, a close or a transport error) it stays cleared until a run
    is started, but the results are not guarded by it: an event that does not
    start a run appends the payload of a result frame and nothing else, also
    in that state. *)
Theorem results_ignore_the_running_flag (p : Panel) (ev : Event) :
  isWorkflowRunning p = false ->
  starts_run ev = false ->
  isWorkflowRunning (step p ev) = false
  /\ workflowResults (step p ev) = (workflowResults p ++ result_payloads [ev])%list.
Proof.
  intros I S. split.
  - now apply step_stays_idle.
  - now apply step_results.
Qed.

(** C5, as the code has it.  Starting a run constructs one new socket, in
    state [CONNECTING], and makes [wsRef] refer to it.  Every socket
    constructed before keeps its ready state and what it has sent, and a
    frame it could deliver before the start it can still deliver after. *)
Theorem start_keeps_prior_channels
    (p : Panel) (sel : option Z) (ws : nat) (data : string) :
  id_truthy sel = true ->
  ws < List.length (sockets p) ->
  wsRef (handleRunWorkflow sel p) = Some (List.length (sockets p))
  /\ state_of (List.length (sockets p)) (handleRunWorkflow sel p) = Some CONNECTING
  /\ List.length (sockets (handleRunWorkflow sel p)) = S (List.length (sockets p))
  /\ state_of ws (handleRunWorkflow sel p) = state_of ws p
  /\ sent_on ws (handleRunWorkflow sel p) = sent_on ws p
  /\ deliverable (handleRunWorkflow sel p) (WsMessage ws data)
       = deliverable p (WsMessage ws data).
Proof.
  intros T L. unfold handleRunWorkflow. destruct sel as [id|]; [|discriminate].
  rewrite T. unfold deliverable, state_of, sent_on. simpl.
  rewrite nth_error_app2, Nat.sub_diag by reflexivity.
  rewrite length_app, Nat.add_1_r.
  rewrite nth_error_app1 by trivial.
  repeat split; reflexivity.
Qed.

(** C6.  From the start of a run on, and until another run is started, the
    results are the payloads of the result frames received, in the order of
    their arrival; what is observed after a part of the events is a prefix
    of what is observed after all of them. *)
Theorem results_in_arrival_order
    (p : Panel) (sel : option Z) (evs1 evs2 : list Event) :
  id_truthy sel = true ->
  forallb (fun ev => negb (starts_run ev)) (evs1 ++ evs2) = true ->
  workflowResults (run (handleRunWorkflow sel p) (evs1 ++ evs2))
    = result_payloads (evs1 ++ evs2)
  /\ workflowResults (run (handleRunWorkflow sel p) evs1) = result_payloads evs1
  /\ workflowResults (run (handleRunWorkflow sel p) (evs1 ++ evs2))
       = (workflowResults (run (handleRunWorkflow sel p) evs1)
            ++ result_payloads evs2)%list.
Proof.
  intros T A.
  destruct (handleRunWorkflow_resets sel p T) as [R _].
  pose proof A as A'. rewrite forallb_app in A'.
  apply andb_true_iff in A' as [A1 A2].
  rewrite (run_results (evs1 ++ evs2)), (run_results evs1) by trivial.
  rewrite R. simpl. repeat split; trivial. apply result_payloads_app.
Qed.

(** C7.  After the start of a run and any events among which there is no
    result frame, a [nextStep] frame transmits nothing and changes nothing:
    its handler returns with the state it found. *)
Theorem nextStep_without_result_sends_nothing
    (p : Panel) (sel : option Z) (evs : list Event) (ws : nat) (next : string) :
  id_truthy sel = true ->
  forallb (fun ev => negb (is_result_frame ev)) evs = true ->
  frame_is "nextStep" next = true ->
  onmessage ws next (run (handleRunWorkflow sel p) evs)
    = Returned (run (handleRunWorkflow sel p) evs)
  /\ step (run (handleRunWorkflow sel p) evs) (WsMessage ws next)
       = run (handleRunWorkflow sel p) evs.
Proof.
  intros T A N.
  assert (L : lastStepResultRef (run (handleRunWorkflow sel p) evs) = JStr "").
  { apply run_last_absent; trivial. now apply handleRunWorkflow_resets. }
  cbn [step]. rewrite onmessage_nextStep, L by trivial. now split.
Qed.

(** C8.  Starting a run empties the results and puts the empty string, the
    panel's mark for no result, in the last result.  They stay so until a
    result frame is handled, whatever else happens, so the first frame of
    the new run finds them reset. *)
Theorem start_resets_results_and_last
    (p : Panel) (sel : option Z) (evs : list Event) :
  id_truthy sel = true ->
  forallb (fun ev => negb (is_result_frame ev)) evs = true ->
  workflowResults (run (handleRunWorkflow sel p) evs) = []
  /\ lastStepResultRef (run (handleRunWorkflow sel p) evs) = JStr "".
Proof.
  intros T A. destruct (handleRunWorkflow_resets sel p T) as [R L].
  now apply run_stays_reset.
Qed.

(** C9.  A frame that parses to an object whose [type] is none of
    [status], [result], [nextStep], [error] is ignored: the handler returns
    and the state of the panel, sockets included, is what it was. *)
Theorem unknown_type_is_ignored
    (p : Panel) (ws : nat) (data : string) (props : list (string * JsValue)) :
  JSON_parse data = Some (JObj props) ->
  (forall k, In k ["status"; "result"; "nextStep"; "error"] ->
             own_prop "type" props <> Some (JStr k)) ->
  onmessage ws data p = Returned p /\ step p (WsMessage ws data) = p.
Proof.
  intros P N.
  assert (E : onmessage ws data p = Returned p).
  { apply (onmessage_other ws data (JObj props) _ p P eq_refl).
    simpl. intros [E|[E|[E|[E|[]]]]];
      destruct (own_prop "type" props) as [t|] eqn:O; try discriminate; subst t;
      eapply N; try reflexivity; simpl; tauto. }
  cbn [step]. rewrite E. now split.
Qed.

(** C10.  After a result frame whose [result] is the empty string, and any
    events among which there is no result frame, a [nextStep] frame
    transmits nothing and changes nothing: the empty string is handled as
    no result. *)
Theorem empty_result_is_absent
    (p : Panel) (ws ws' : nat) (data next : string) (d : JsValue) (evs : list Event) :
  JSON_parse data = Some d ->
  frame_is "result" data = true ->
  Get d "result" = inr (JStr "") ->
  forallb (fun ev => negb (is_result_frame ev)) evs = true ->
  frame_is "nextStep" next = true ->
  onmessage ws' next (run (step p (WsMessage ws data)) evs)
    = Returned (run (step p (WsMessage ws data)) evs)
  /\ step (run (step p (WsMessage ws data)) evs) (WsMessage ws' next)
       = run (step p (WsMessage ws data)) evs.
Proof.
  intros P F G A N.
  set (p1 := run (step p (WsMessage ws data)) evs).
  assert (L : lastStepResultRef p1 = JStr "").
  { apply run_last_absent; trivial.
    apply (result_frame_sets_last ws data d _ p P F G). }
  cbn [step]. rewrite onmessage_nextStep, L by trivial. now split.
Qed.

End Protocol.

(** * The protocol on concrete runs *)

Section Runs.
Import Scenario.

(** The runs of this section are on [reference_host]. *)
#[local] Existing Instance reference_host.

(** Section 8, scenario 6 of the design: two chained steps and a clean
    close. *)
Example two_step_run :
  after (started ++
         [WsMessage 0 (status_frame "connecting...");
          WsMessage 0 (result_frame "1" "Write a title" "My Title");
          WsMessage 0 nextStep_frame;
          WsMessage 0 (result_frame "2" "Write a body" "Body text");
          WsClosed 0 false])
  = {| isWorkflowRunning := false;
       workflowResults :=
         [result_payload one "Write a title" "My Title";
          result_payload two "Write a body" "Body text"];
       currentStatus := JStr "Workflow finished. Connection closed.";
       lastStepResultRef := JStr "Body text";
       wsRef := None;
       sockets :=
         [{| url := "wss://ai-orchestrator-backend.onrender.com/ws/workflows/7/run";
             readyState := CLOSED;
             sent := [stepInput (JStr "My Title")] |}];
       alerts := [] |}.
Proof. vm_compute. reflexivity. Qed.

(** C1 on the design's example: [result{step:1, result:"R1"}] and then
    [nextStep] transmit exactly [stepInput{content:"R1"}]. *)
Lemma chaining_forwards_nonempty_result_witness :
  sent_on 0 (after (started ++ [WsMessage 0 (result_frame "1" "P1" "R1")])) = []
  /\ sent_on 0 (step
                  (run (step (after started) (WsMessage 0 (result_frame "1" "P1" "R1"))) [])
                  (WsMessage 0 nextStep_frame))
     = [stepInput (JStr "R1")].
Proof.
  split; [vm_compute; reflexivity|].
  refine (proj1 (chaining_forwards_nonempty_result (H := reference_host)
                   (after started) 0 (result_frame "1" "P1" "R1") nextStep_frame
                   (result_payload one "P1" "R1") (JStr "R1") [] _ _ _ _ _ _ _));
    vm_compute; reflexivity.
Defined.

(** C1 fails as stated for the empty string: after a result frame whose
    result is [""], in a run whose channel is open, [nextStep] transmits
    nothing, not [stepInput{content:""}]. *)
Lemma empty_result_sends_no_stepInput :
  deliverable_trace mounted
    (started ++ [WsMessage 0 (result_frame "1" "P1" ""); WsMessage 0 nextStep_frame])
  = true
  /\ isWorkflowRunning (after (started ++ [WsMessage 0 (result_frame "1" "P1" "")])) = true
  /\ state_of 0 (after (started ++ [WsMessage 0 (result_frame "1" "P1" "")])) = Some OPEN
  /\ sent_on 0 (after (started ++ [WsMessage 0 (result_frame "1" "P1" "");
                                   WsMessage 0 nextStep_frame]))
     <> [stepInput (JStr "")].
Proof.
  repeat split; try (vm_compute; reflexivity).
  vm_compute. discriminate.
Qed.

(** C2 on the design's error scenario. *)
Lemma error_frame_then_close_witness :
  currentStatus (step (after started)
                   (WsMessage 0 (error_frame "rate limited")))
  = JStr "Error: rate limited"
  /\ currentStatus (step
                      (step (after started) (WsMessage 0 (error_frame "rate limited")))
                      (WsClosed 0 false))
     = JStr "Workflow finished. Connection closed.".
Proof.
  assert (E := error_frame_then_close (H := reference_host)
                 (after started) 0 (error_frame "rate limited")
                 (JObj [("type", JStr "error"); ("message", JStr "rate limited")])
                 "rate limited" false
                 ltac:(vm_compute; reflexivity) ltac:(vm_compute; reflexivity)
                 ltac:(vm_compute; reflexivity)).
  split; [exact (proj1 (proj2 (proj2 E))) | exact (proj2 (proj2 (proj2 (proj2 (proj2 (proj2 (proj2 E)))))))].
Defined.

(** C2 fails as stated: the close that follows an [error] frame replaces the
    error status, and a [nextStep] frame that follows an [error] frame on
    the open channel still transmits a command. *)
Lemma close_replaces_the_error_status :
  deliverable_trace mounted
    (started ++ [WsMessage 0 (error_frame "rate limited"); WsClosed 0 false]) = true
  /\ currentStatus (after (started ++ [WsMessage 0 (error_frame "rate limited");
                                       WsClosed 0 false]))
     <> JStr "Error: rate limited"
  /\ deliverable_trace mounted
       (started ++ [WsMessage 0 (result_frame "1" "P1" "R1");
                    WsMessage 0 (error_frame "rate limited");
                    WsMessage 0 nextStep_frame]) = true
  /\ sent_on 0 (after (started ++ [WsMessage 0 (result_frame "1" "P1" "R1");
                                   WsMessage 0 (error_frame "rate limited")])) = []
  /\ sent_on 0 (after (started ++ [WsMessage 0 (result_frame "1" "P1" "R1");
                                   WsMessage 0 (error_frame "rate limited");
                                   WsMessage 0 nextStep_frame]))
     = [stepInput (JStr "R1")].
Proof.
  repeat split; try (vm_compute; reflexivity).
  vm_compute. discriminate.
Qed.

(** C3 on a truncated frame. *)
Lemma malformed_frame_throws_witness :
  receives 0 malformed_frame (after started) = Threw SyntaxError
  /\ step (after started) (WsMessage 0 malformed_frame)
     = after started.
Proof.
  apply (malformed_frame_throws (H := reference_host)).
  vm_compute. reflexivity.
Defined.

(** C3 fails as stated: a frame that does not parse is not turned into an
    error; the handler throws and the run is still running with the status
    it had. *)
Lemma malformed_frame_is_no_error_event :
  receives 0 malformed_frame (after started) = Threw SyntaxError
  /\ isWorkflowRunning (after (started ++ [WsMessage 0 malformed_frame])) = true
  /\ currentStatus (after (started ++ [WsMessage 0 malformed_frame]))
     = JStr "Connection established. Starting workflow...".
Proof. repeat split; vm_compute; reflexivity. Qed.

(** C4 on a run that finished: a result frame handed to the handler after
    the close is appended. *)
Lemma results_ignore_the_running_flag_witness :
  isWorkflowRunning
    (step
       (after (started ++ [WsMessage 0 (result_frame "1" "P1" "R1"); WsClosed 0 false]))
       (WsMessage 0 (result_frame "2" "P2" "late")))
  = false
  /\ workflowResults
       (step
          (after (started ++ [WsMessage 0 (result_frame "1" "P1" "R1"); WsClosed 0 false]))
          (WsMessage 0 (result_frame "2" "P2" "late")))
     = (workflowResults
          (after (started ++ [WsMessage 0 (result_frame "1" "P1" "R1"); WsClosed 0 false]))
        ++ result_payloads
             [WsMessage 0 (result_frame "2" "P2" "late")])%list.
Proof.
  apply (results_ignore_the_running_flag (H := reference_host)
           (after (started ++ [WsMessage 0 (result_frame "1" "P1" "R1"); WsClosed 0 false]))
           (WsMessage 0 (result_frame "2" "P2" "late")));
    vm_compute; reflexivity.
Defined.

(** C4 fails as stated: after an [error] frame the session is terminal and
    its channel still open; a result frame that arrives then is appended. *)
Lemma result_after_error_is_appended :
  deliverable_trace mounted
    (started ++ [WsMessage 0 (error_frame "rate limited");
                 WsMessage 0 (result_frame "1" "P1" "late")]) = true
  /\ isWorkflowRunning (after (started ++ [WsMessage 0 (error_frame "rate limited")]))
     = false
  /\ workflowResults (after (started ++ [WsMessage 0 (error_frame "rate limited")])) = []
  /\ workflowResults (after (started ++ [WsMessage 0 (error_frame "rate limited");
                                         WsMessage 0 (result_frame "1" "P1" "late")]))
     = [result_payload one "P1" "late"].
Proof. repeat split; vm_compute; reflexivity. Qed.

(** C5 on a run that ended with an [error] frame and is started again. *)
Lemma start_keeps_prior_channels_witness :
  wsRef (handleRunWorkflow (Some 7%Z)
           (after (started ++ [WsMessage 0 (error_frame "rate limited")])))
  = Some 1
  /\ state_of 0 (handleRunWorkflow (Some 7%Z)
                   (after (started ++ [WsMessage 0 (error_frame "rate limited")])))
     = Some OPEN
  /\ deliverable (handleRunWorkflow (Some 7%Z)
                    (after (started ++ [WsMessage 0 (error_frame "rate limited")])))
       (WsMessage 0 (result_frame "1" "P1" "late"))
     = true.
Proof.
  assert (E := start_keeps_prior_channels (H := reference_host)
                 (after (started ++ [WsMessage 0 (error_frame "rate limited")]))
                 (Some 7%Z) 0 (result_frame "1" "P1" "late")
                 ltac:(vm_compute; reflexivity) ltac:(vm_compute; lia)).
  destruct E as (E1 & _ & _ & E2 & _ & E3).
  split; [exact E1|]. split; [exact E2 | exact E3].
Defined.

(** C5 fails as stated: the channel of a run that ended with an [error]
    frame is still open when the next run is started, the start does not
    close it, and a frame it delivers afterwards lands in the new run. *)
Lemma superseded_channel_still_delivers :
  deliverable_trace mounted
    (started ++ [WsMessage 0 (error_frame "rate limited");
                 RunClick (Some 7%Z);
                 WsMessage 0 (result_frame "1" "P1" "late")]) = true
  /\ wsRef (after (started ++ [WsMessage 0 (error_frame "rate limited");
                               RunClick (Some 7%Z)])) = Some 1
  /\ state_of 0 (after (started ++ [WsMessage 0 (error_frame "rate limited");
                                    RunClick (Some 7%Z)])) = Some OPEN
  /\ workflowResults (after (started ++ [WsMessage 0 (error_frame "rate limited");
                                         RunClick (Some 7%Z)])) = []
  /\ workflowResults (after (started ++ [WsMessage 0 (error_frame "rate limited");
                                         RunClick (Some 7%Z);
                                         WsMessage 0 (result_frame "1" "P1" "late")]))
     = [result_payload one "P1" "late"].
Proof. repeat split; vm_compute; reflexivity. Qed.

(** C6 on results that arrive as step 2 and then step 1: they are kept in
    that order. *)
Lemma results_in_arrival_order_witness :
  workflowResults
    (run (handleRunWorkflow (Some 7%Z) mounted)
       ([WsOpen 0; WsMessage 0 (result_frame "2" "P2" "R2")]
        ++ [WsMessage 0 (result_frame "1" "P1" "R1")]))
  = [result_payload two "P2" "R2"; result_payload one "P1" "R1"]
  /\ workflowResults
       (run (handleRunWorkflow (Some 7%Z) mounted)
          [WsOpen 0; WsMessage 0 (result_frame "2" "P2" "R2")])
     = [result_payload two "P2" "R2"].
Proof.
  assert (E := results_in_arrival_order (H := reference_host)
                 mounted (Some 7%Z)
                 [WsOpen 0; WsMessage 0 (result_frame "2" "P2" "R2")]
                 [WsMessage 0 (result_frame "1" "P1" "R1")]
                 ltac:(vm_compute; reflexivity) ltac:(vm_compute; reflexivity)).
  destruct E as (E1 & E2 & _).
  split; [exact E1 | exact E2].
Defined.

(** C7 on a run that has received a status frame only. *)
Lemma nextStep_without_result_sends_nothing_witness :
  receives 0 nextStep_frame
    (run (handleRunWorkflow (Some 7%Z) mounted)
       [WsOpen 0; WsMessage 0 (status_frame "connecting...")])
  = Returned (run (handleRunWorkflow (Some 7%Z) mounted)
                [WsOpen 0; WsMessage 0 (status_frame "connecting...")])
  /\ sent_on 0 (step (run (handleRunWorkflow (Some 7%Z) mounted)
                        [WsOpen 0; WsMessage 0 (status_frame "connecting...")])
                  (WsMessage 0 nextStep_frame))
     = [].
Proof.
  assert (E := nextStep_without_result_sends_nothing (H := reference_host)
                 mounted (Some 7%Z)
                 [WsOpen 0; WsMessage 0 (status_frame "connecting...")]
                 0 nextStep_frame
                 ltac:(vm_compute; reflexivity) ltac:(vm_compute; reflexivity)
                 ltac:(vm_compute; reflexivity)).
  destruct E as (E1 & E2).
  split; [exact E1 | rewrite E2; vm_compute; reflexivity].
Defined.

(** C8 on a second run of the same workflow, started after a first run that
    left a result: the status frame that opens the second run finds the
    results empty. *)
Lemma start_resets_results_and_last_witness :
  workflowResults
    (after (started ++ [WsMessage 0 (result_frame "1" "P1" "R1"); WsClosed 0 false]))
  = [result_payload one "P1" "R1"]
  /\ workflowResults
       (run (handleRunWorkflow (Some 7%Z)
               (after (started ++ [WsMessage 0 (result_frame "1" "P1" "R1");
                                   WsClosed 0 false])))
          [WsOpen 1; WsMessage 1 (status_frame "connecting...")])
     = []
  /\ lastStepResultRef
       (run (handleRunWorkflow (Some 7%Z)
               (after (started ++ [WsMessage 0 (result_frame "1" "P1" "R1");
                                   WsClosed 0 false])))
          [WsOpen 1; WsMessage 1 (status_frame "connecting...")])
     = JStr "".
Proof.
  split; [vm_compute; reflexivity|].
  apply (start_resets_results_and_last (H := reference_host)
           (after (started ++ [WsMessage 0 (result_frame "1" "P1" "R1"); WsClosed 0 false]))
           (Some 7%Z) [WsOpen 1; WsMessage 1 (status_frame "connecting...")]);
    vm_compute; reflexivity.
Defined.

(** C9 on a frame of a type the panel does not know. *)
Lemma unknown_type_is_ignored_witness :
  receives 0 heartbeat_frame (after started) = Returned (after started)
  /\ step (after started) (WsMessage 0 heartbeat_frame) = after started.
Proof.
  apply (unknown_type_is_ignored (H := reference_host)
           (after started) 0 heartbeat_frame
           [("type", JStr "heartbeat"); ("seq", JNum three)]).
  - vm_compute. reflexivity.
  - simpl. intros k [<-|[<-|[<-|[<-|[]]]]]; discriminate.
Defined.

(** C10 on a first step that returned the empty string. *)
Lemma empty_result_is_absent_witness :
  receives 0 nextStep_frame
    (run (step (after started) (WsMessage 0 (result_frame "1" "P1" "")))
       [WsMessage 0 (status_frame "next")])
  = Returned (run (step (after started) (WsMessage 0 (result_frame "1" "P1" "")))
                [WsMessage 0 (status_frame "next")])
  /\ step (run (step (after started) (WsMessage 0 (result_frame "1" "P1" "")))
             [WsMessage 0 (status_frame "next")])
       (WsMessage 0 nextStep_frame)
     = run (step (after started) (WsMessage 0 (result_frame "1" "P1" "")))
         [WsMessage 0 (status_frame "next")].
Proof.
  apply (empty_result_is_absent (H := reference_host)
           (after started) 0 0 (result_frame "1" "P1" "") nextStep_frame
           (result_payload one "P1" "") [WsMessage 0 (status_frame "next")]);
    vm_compute; reflexivity.
Defined.

End Runs.

(** * Further properties of the panel *)

(** ** Sockets under a step *)

Lemma length_update_socket (i : nat) (f : WebSocket -> WebSocket) (l : list WebSocket) :
  List.length (update_socket i f l) = List.length l.
Proof.
  revert i. induction l as [|a l IH]; intros [|i]; simpl; trivial.
  now rewrite IH.
Qed.

Lemma nth_error_update_socket (l : list WebSocket) (i j : nat)
      (f : WebSocket -> WebSocket) :
  nth_error (update_socket i f l) j
  = if (i =? j)%nat then option_map f (nth_error l j) else nth_error l j.
Proof.
  destruct (Nat.eqb_spec i j) as [<-|N].
  - destruct (nth_error l i) as [w|] eqn:E.
    + now apply nth_error_update_socket_eq.
    + simpl. apply nth_error_None. rewrite length_update_socket.
      now apply nth_error_None.
  - now apply nth_error_update_socket_neq.
Qed.

Lemma sent_on_browser_sets (ws j : nat) (r : ReadyState) (p : Panel) :
  sent_on ws (browser_sets j r p) = sent_on ws p.
Proof.
  unfold sent_on, browser_sets. simpl. rewrite nth_error_update_socket.
  destruct (j =? ws)%nat; trivial. now destruct (nth_error (sockets p) ws).
Qed.


Lemma nth_error_new_socket (l : list WebSocket) (w : WebSocket) (ws : nat) :
  nth_error (l ++ [w]) ws
  = if (ws =? List.length l)%nat then Some w else nth_error l ws.
Proof.
  destruct (Nat.eqb_spec ws (List.length l)) as [->|N].
  - now rewrite nth_error_app2, Nat.sub_diag by reflexivity.
  - destruct (Nat.lt_ge_cases ws (List.length l)) as [L|G].
    + now apply nth_error_app1.
    + assert (O1 : nth_error (l ++ [w]) ws = None).
      { apply nth_error_None. rewrite length_app. simpl. lia. }
      assert (O2 : nth_error l ws = None) by now apply nth_error_None.
      congruence.
Qed.

(** Sending leaves the ready states alone, and transmits only on an open
    socket. *)
Lemma ws_send_states (ws : nat) (c : Command) (p : Panel) (any : nat) :
  state_of any (settle p (ws_send ws c p)) = state_of any p.
Proof.
  unfold ws_send. destruct (nth_error (sockets p) ws) as [w|] eqn:E; trivial.
  destruct (readyState w) eqn:R; trivial.
  unfold state_of. simpl. rewrite nth_error_update_socket.
  destruct (Nat.eqb_spec ws any) as [<-|N]; trivial.
  rewrite E. simpl. now rewrite R.
Qed.

Lemma ws_send_unopen (ws : nat) (c : Command) (p : Panel) :
  state_of ws p <> Some OPEN -> sockets (settle p (ws_send ws c p)) = sockets p.
Proof.
  unfold state_of, ws_send. destruct (nth_error (sockets p) ws) as [w|]; trivial.
  simpl. destruct (readyState w); trivial. congruence.
Qed.

Lemma ws_send_length (ws : nat) (c : Command) (p : Panel) :
  List.length (sockets (settle p (ws_send ws c p))) = List.length (sockets p).
Proof.
  unfold ws_send. destruct (nth_error (sockets p) ws) as [w|]; trivial.
  destruct (readyState w); trivial. simpl. apply length_update_socket.
Qed.

Section SocketLemmas.
Context `{Host}.

(** Only a [nextStep] frame touches the sockets. *)
Lemma other_frame_keeps_sockets (ws : nat) (data : string) (p : Panel) :
  frame_is "nextStep" data = false ->
  sockets (settle p (onmessage ws data p)) = sockets p.
Proof.
  unfold frame_is, onmessage.
  destruct (JSON_parse data) as [d|]; simpl; trivial.
  destruct (Get d "type") as [e|t]; simpl; trivial.
  intros N. rewrite N.
  destruct (strict_eq_str t "status").
  { destruct (Get d "message"); reflexivity. }
  destruct (strict_eq_str t "result").
  { destruct (Get d "result"); reflexivity. }
  destruct (strict_eq_str t "error"); trivial.
  destruct (Get d "message") as [e|m]; simpl; trivial.
  destruct (ToString m); reflexivity.
Qed.

(** No frame changes [wsRef] or a ready state, or the number of sockets. *)
Lemma frame_keeps_channels (ws : nat) (data : string) (p : Panel) :
  wsRef (step p (WsMessage ws data)) = wsRef p
  /\ List.length (sockets (step p (WsMessage ws data))) = List.length (sockets p)
  /\ forall any, state_of any (step p (WsMessage ws data)) = state_of any p.
Proof.
  cbn [step]. destruct (frame_is "nextStep" data) eqn:N.
  - rewrite (onmessage_nextStep ws data p N).
    destruct (ToBoolean (lastStepResultRef p)); [|now repeat split].
    pose proof (ws_send_keeps ws (stepInput (lastStepResultRef p)) p) as K.
    simpl in K. repeat split; try tauto.
    + apply ws_send_length.
    + intros any. apply ws_send_states.
  - pose proof (other_frame_keeps_sockets ws data p N) as S.
    assert (W : wsRef (settle p (onmessage ws data p)) = wsRef p).
    { clear S. revert N. unfold frame_is, onmessage.
      destruct (JSON_parse data) as [d|]; simpl; trivial.
      destruct (Get d "type") as [e|t]; simpl; trivial.
      intros N. rewrite N.
      destruct (strict_eq_str t "status").
      { destruct (Get d "message"); reflexivity. }
      destruct (strict_eq_str t "result").
      { destruct (Get d "result"); reflexivity. }
      destruct (strict_eq_str t "error"); trivial.
      destruct (Get d "message") as [e|m]; simpl; trivial.
      destruct (ToString m); reflexivity. }
    repeat split; trivial.
    + now rewrite S.
    + intros any. unfold state_of. now rewrite S.
Qed.

(** A step transmits nothing, or it handles a [nextStep] frame on a socket
    and transmits the last result, which is truthy, on that socket. *)
Lemma step_sent (p : Panel) (ev : Event) (ws : nat) :
  sent_on ws (step p ev) = sent_on ws p
  \/ (exists next, ev = WsMessage ws next
        /\ frame_is "nextStep" next = true
        /\ ToBoolean (lastStepResultRef p) = true
        /\ sent_on ws (step p ev)
           = (sent_on ws p ++ [stepInput (lastStepResultRef p)])%list).
Proof.
  destruct ev as [sel|j|j data|j failed|].
  - left. cbn [step]. unfold handleRunWorkflow.
    destruct sel as [id|]; trivial.
    destruct (negb (id_truthy (Some id))); trivial.
    unfold sent_on. simpl. rewrite nth_error_new_socket.
    destruct (Nat.eqb_spec ws (List.length (sockets p))) as [->|N]; trivial.
    assert (O : nth_error (sockets p) (List.length (sockets p)) = None)
      by (apply nth_error_None; lia).
    now rewrite O.
  - left. apply (sent_on_browser_sets ws j OPEN p).
  - destruct (frame_is "nextStep" data) eqn:N.
    + cbn [step]. rewrite (onmessage_nextStep j data p N).
      destruct (ToBoolean (lastStepResultRef p)) eqn:T; [|now left].
      destruct (state_of j p) as [[| | |]|] eqn:S;
        try (left; unfold sent_on; now rewrite ws_send_unopen by congruence).
      destruct (ws_send_open j (stepInput (lastStepResultRef p)) p S)
        as (p' & E & S1 & S2 & _).
      rewrite E. simpl. destruct (Nat.eq_dec ws j) as [->|D].
      * right. exists data. now repeat split.
      * left. now apply S2.
    + left. cbn [step]. unfold sent_on.
      now rewrite (other_frame_keeps_sockets j data p N).
  - left. cbn [step]. destruct failed; apply (sent_on_browser_sets ws j CLOSED p).
  - left. cbn [step]. unfold beforeunload.
    destruct (wsRef p) as [i|]; trivial.
    destruct (nth_error (sockets p) i) as [w|]; trivial.
    destruct (readyState w); trivial.
    apply (sent_on_browser_sets ws i CLOSING p).
Qed.

Lemma nextStep_requests_app (ws : nat) (evs1 evs2 : list Event) :
  nextStep_requests ws (evs1 ++ evs2)
  = nextStep_requests ws evs1 + nextStep_requests ws evs2.
Proof.
  induction evs1 as [|ev evs1 IH]; trivial.
  destruct ev; simpl; trivial. rewrite IH. lia.
Qed.

End SocketLemmas.

(** ** What the panel transmits *)

Section Transmission.
Context `{Host}.

(** X1.  On every socket, the commands transmitted over any events are at
    most as many as the [nextStep] frames that arrived on that socket: the
    panel speaks only when asked, once per request, on the channel that
    asked. *)
Theorem one_command_per_request (p : Panel) (evs : list Event) (ws : nat) :
  List.length (sent_on ws (run p evs))
  <= List.length (sent_on ws p) + nextStep_requests ws evs.
Proof.
  revert p. induction evs as [|ev evs IH]; intros p; [simpl; lia|].
  change (ev :: evs) with ([ev] ++ evs)%list.
  rewrite run_app, nextStep_requests_app.
  change (run p [ev]) with (step p ev).
  specialize (IH (step p ev)).
  destruct (step_sent p ev ws) as [E|(next & -> & N & _ & E)].
  - rewrite E in IH. lia.
  - rewrite E, length_app in IH. simpl in *. rewrite Nat.eqb_refl, N. simpl. lia.
Qed.

(** The last result is the empty string or the [result] of a result frame
    among the events so far, and so is the content of every command
    transmitted. *)
Lemma relay_invariant (evs : list Event) :
  (lastStepResultRef (run mounted evs) = JStr ""
   \/ exists d, In d (result_payloads evs)
                /\ Get d "result" = inr (lastStepResultRef (run mounted evs)))
  /\ forall ws c, In (stepInput c) (sent_on ws (run mounted evs)) ->
       ToBoolean c = true
       /\ exists d, In d (result_payloads evs) /\ Get d "result" = inr c.
Proof.
  induction evs as [|ev evs IH] using rev_ind.
  - split; [now left|]. intros ws c I.
    unfold sent_on in I. simpl in I. now destruct ws.
  - rewrite run_app, result_payloads_app.
    change (run (run mounted evs) [ev]) with (step (run mounted evs) ev).
    set (p := run mounted evs) in *. destruct IH as [L S]. split.
    + destruct (starts_run ev) eqn:ST.
      { left. destruct ev; try discriminate. now apply handleRunWorkflow_resets. }
      destruct (is_result_frame ev) eqn:RF.
      { right. destruct ev as [| |ws data| |]; try discriminate. simpl in RF.
        destruct (onmessage_result ws data p RF) as (d & r & P & G & E).
        exists d. split.
        - apply in_or_app. right. simpl. rewrite P, RF. now left.
        - cbn [step]. rewrite E. simpl. exact G. }
      rewrite step_last by trivial.
      destruct L as [L|(d & I & G)]; [now left|right].
      exists d. split; trivial. apply in_or_app. now left.
    + intros ws c I.
      assert (M : forall c', (ToBoolean c' = true
                   /\ exists d, In d (result_payloads evs) /\ Get d "result" = inr c') ->
                 ToBoolean c' = true
                 /\ exists d, In d (result_payloads evs ++ result_payloads [ev])
                              /\ Get d "result" = inr c').
      { intros c' (T & d & I' & G). split; trivial. exists d. split; trivial.
        apply in_or_app. now left. }
      destruct (step_sent p ev ws) as [E|(next & -> & N & T & E)].
      * rewrite E in I. apply M. exact (S ws c I).
      * rewrite E in I. apply in_app_or in I as [I|[I|[]]].
        -- apply M. exact (S ws c I).
        -- injection I as <-. apply M. split; trivial.
           destruct L as [L|L]; trivial. rewrite L in T. discriminate.
Qed.

(** X2.  Whatever happens to a mounted panel, every command it transmits
    carries a truthy content that is the [result] of a result frame it
    received before: the panel relays results and sends nothing of its
    own, and never an empty content. *)
Theorem commands_relay_received_results
    (evs : list Event) (ws : nat) (c : JsValue) :
  In (stepInput c) (sent_on ws (run mounted evs)) ->
  ToBoolean c = true
  /\ exists d, In d (result_payloads evs) /\ Get d "result" = inr c.
Proof. apply relay_invariant. Qed.

End Transmission.

(** ** The channel a run holds *)

Section Channels.
Context `{Host}.

Lemma step_sockets_length (p : Panel) (ev : Event) :
  List.length (sockets (step p ev))
  = if starts_run ev then S (List.length (sockets p)) else List.length (sockets p).
Proof.
  destruct ev as [sel|j|j data|j failed|]; cbn [step starts_run].
  - unfold handleRunWorkflow. destruct sel as [id|]; trivial.
    destruct (id_truthy (Some id)); simpl; trivial.
    rewrite length_app. simpl. lia.
  - simpl. apply length_update_socket.
  - apply frame_keeps_channels.
  - destruct failed; simpl; apply length_update_socket.
  - unfold beforeunload. destruct (wsRef p) as [i|]; trivial.
    destruct (nth_error (sockets p) i) as [w|]; trivial.
    destruct (readyState w); trivial. simpl. apply length_update_socket.
Qed.

Lemma start_opens_channel (sel : option Z) (p : Panel) :
  id_truthy sel = true ->
  isWorkflowRunning (handleRunWorkflow sel p) = true
  /\ wsRef (handleRunWorkflow sel p) = Some (List.length (sockets p))
  /\ state_of (List.length (sockets p)) (handleRunWorkflow sel p) = Some CONNECTING.
Proof.
  intros T. unfold handleRunWorkflow. destruct sel as [id|]; [|discriminate].
  rewrite T. unfold state_of. simpl.
  now rewrite nth_error_new_socket, Nat.eqb_refl.
Qed.

Lemma beforeunload_wsRef (p : Panel) : wsRef (beforeunload p) = wsRef p.
Proof. unfold beforeunload. repeat break_match; simpl; congruence. Qed.

(** [wsRef], when set, names the socket constructed last. *)
Lemma wsRef_invariant (evs : list Event) (i : nat) :
  wsRef (run mounted evs) = Some i -> S i = List.length (sockets (run mounted evs)).
Proof.
  revert i. induction evs as [|ev evs IH] using rev_ind; intros i; [discriminate|].
  rewrite run_app. change (run (run mounted evs) [ev]) with (step (run mounted evs) ev).
  set (p := run mounted evs) in *.
  rewrite step_sockets_length.
  destruct ev as [sel|j|j data|j failed|]; cbn [starts_run].
  - cbn [step]. destruct (id_truthy sel) eqn:T.
    + destruct (start_opens_channel sel p T) as (_ & W & _). rewrite W. congruence.
    + rewrite handleRunWorkflow_idle by trivial. apply IH.
  - apply IH.
  - destruct (frame_keeps_channels j data p) as (W & _). rewrite W. apply IH.
  - cbn [step]. destruct failed; discriminate.
  - cbn [step]. rewrite beforeunload_wsRef. apply IH.
Qed.


(** X3.  Whatever happens to a mounted panel, [wsRef] is empty or refers to
    the socket constructed last: a reference to a superseded socket is never
    kept. *)
Theorem wsRef_is_the_newest_socket (evs : list Event) (i : nat) :
  wsRef (run mounted evs) = Some i ->
  S i = List.length (sockets (run mounted evs)).
Proof. apply wsRef_invariant. Qed.


(** X5.  Without a click that passes a workflow id other than [null] and
    [0], nothing that happens to a mounted panel constructs a socket or sets
    the running flag. *)
Theorem no_channel_without_a_selected_workflow (evs : list Event) :
  forallb (fun ev => negb (starts_run ev)) evs = true ->
  sockets (run mounted evs) = [] /\ isWorkflowRunning (run mounted evs) = false.
Proof.
  induction evs as [|ev evs IH] using rev_ind; intros A; [now split|].
  rewrite forallb_app in A. apply andb_true_iff in A as [A1 A2].
  cbn [forallb] in A2. rewrite andb_true_r in A2. apply negb_true_iff in A2.
  destruct (IH A1) as [S R].
  rewrite run_app. change (run (run mounted evs) [ev]) with (step (run mounted evs) ev).
  split.
  - apply length_zero_iff_nil. rewrite step_sockets_length, A2, S. reflexivity.
  - now apply step_stays_idle.
Qed.

(** X6.  The closing task leaves the same state whether the connection
    failed or closed cleanly: what the [error] handler sets is overwritten
    by the [close] handler that follows it, so the status is the text of a
    finished workflow either way. *)
Theorem failure_ends_like_a_clean_close (p : Panel) (ws : nat) :
  step p (WsClosed ws true) = step p (WsClosed ws false)
  /\ currentStatus (step p (WsClosed ws true))
     = JStr "Workflow finished. Connection closed.".
Proof. split; reflexivity. Qed.


(** While the running flag is set, the status is the text of the start, the
    text of the [open] handler, or the message of a status frame received. *)
Lemma shown_status_invariant (evs : list Event) :
  isWorkflowRunning (run mounted evs) = true ->
  currentStatus (run mounted evs) = JStr "Connecting to workflow engine..."
  \/ currentStatus (run mounted evs) = JStr "Connection established. Starting workflow..."
  \/ exists ws data d,
       In (WsMessage ws data) evs /\ frame_is "status" data = true
       /\ JSON_parse data = Some d
       /\ Get d "message" = inr (currentStatus (run mounted evs)).
Proof.
  induction evs as [|ev evs IH] using rev_ind; [discriminate|].
  rewrite run_app. change (run (run mounted evs) [ev]) with (step (run mounted evs) ev).
  set (p := run mounted evs) in *. intros R.
  destruct (starts_run ev) eqn:ST.
  { left. destruct ev as [sel| | | |]; try discriminate. simpl in ST.
    cbn [step]. unfold handleRunWorkflow. destruct sel; [|discriminate].
    now rewrite ST. }
  assert (R0 : isWorkflowRunning p = true).
  { destruct (isWorkflowRunning p) eqn:R0; trivial.
    now rewrite (step_stays_idle p ev R0 ST) in R. }
  assert (K : currentStatus (step p ev) = currentStatus p ->
              currentStatus (step p ev) = JStr "Connecting to workflow engine..."
              \/ currentStatus (step p ev)
                 = JStr "Connection established. Starting workflow..."
              \/ exists ws data d,
                   In (WsMessage ws data) (evs ++ [ev])
                   /\ frame_is "status" data = true /\ JSON_parse data = Some d
                   /\ Get d "message" = inr (currentStatus (step p ev))).
  { intros E. rewrite E. destruct (IH R0) as [I|[I|(ws & data & d & I & F & P & G)]];
      [now left | now right; left | right; right].
    exists ws, data, d. repeat split; trivial. apply in_or_app. now left. }
  destruct ev as [sel|j|j data|j failed|].
  - apply K. cbn [step]. simpl in ST. now rewrite handleRunWorkflow_idle.
  - right. left. reflexivity.
  - destruct (frame_is "status" data) eqn:F.
    + right. right. destruct (onmessage_status j data p F) as (d & m & P & G & E).
      exists j, data, d. cbn [step]. rewrite E. simpl.
      repeat split; trivial. apply in_or_app. right. now left.
    + destruct (frame_is "error" data) eqn:FE.
      * cbn [step] in *.
        destruct (onmessage_error j data p FE) as (d & m & _ & _ & E).
        rewrite E in *. destruct (ToString m); simpl in *; [now apply K | discriminate].
      * apply K. cbn [step]. clear K. revert F FE. unfold frame_is, onmessage.
        destruct (JSON_parse data) as [d|]; simpl; trivial.
        destruct (Get d "type") as [e|t]; simpl; trivial.
        intros F FE. rewrite F.
        destruct (strict_eq_str t "result").
        { destruct (Get d "result"); reflexivity. }
        destruct (strict_eq_str t "nextStep").
        { destruct (ToBoolean (lastStepResultRef p)); trivial.
          pose proof (ws_send_keeps j (stepInput (lastStepResultRef p)) p) as Q.
          simpl in Q. tauto. }
        now rewrite FE.
  - cbn [step] in R. destruct failed; discriminate.
  - apply K. cbn [step]. unfold beforeunload. repeat break_match; reflexivity.
Qed.

End Channels.

(** ** What the panel shows and where it connects *)

Section Shown.
Context `{Host}.

(** X8.  Whatever happens to a mounted panel, the live status box, which is
    rendered only while the running flag is set, shows the text of the
    start, the text of the [open] handler or the message of a status frame
    that was received.  The texts that the [error] branch, the [close]
    handler and the [error] handler put in the status are set together with
    clearing the flag, so the box never shows them. *)
Theorem shown_status_comes_from_the_run
    (evs : list Event) (sel : option Z) (name : option string) (s : JsValue) :
  live_status (render sel name (run mounted evs)) = Some s ->
  s = JStr "Connecting to workflow engine..."
  \/ s = JStr "Connection established. Starting workflow..."
  \/ exists ws data d,
       In (WsMessage ws data) evs /\ frame_is "status" data = true
       /\ JSON_parse data = Some d /\ Get d "message" = inr s.
Proof.
  unfold render. cbn [live_status].
  destruct (isWorkflowRunning (run mounted evs)) eqn:R; [|discriminate].
  intros [= <-]. now apply shown_status_invariant.
Qed.

Lemma strip_https_http (u rest : string) :
  strip_prefix "https" u = Some rest ->
  strip_prefix "http" u = Some (String "s" rest).
Proof.
  destruct u as [|a [|b [|c [|d [|e u]]]]]; cbn [strip_prefix]; try discriminate;
    repeat match goal with
           | |- context [(?x =? ?y)%char] => destruct (Ascii.eqb_spec x y)
           end; try discriminate.
  intros [= <-]. now subst.
Qed.

(** X9.  For a configured backend URL, the socket URL is that URL with a
    leading [http] replaced by [ws] and everything after it kept, so that
    [https] becomes [wss]; a URL that does not start with [http], in lower
    case, is used as it is. *)
Theorem ws_url_replaces_leading_http (u : string) :
  NEXT_PUBLIC_BACKEND_URL = Some u -> u <> "" ->
  wsUrl = match strip_prefix "http" u with
          | Some rest => "ws" ++ rest
          | None => u
          end.
Proof.
  intros E N. unfold wsUrl, backendApiUrl. rewrite E.
  destruct (String.eqb_spec u "") as [->|_]; [contradiction|].
  destruct (strip_prefix "https" u) as [rest|] eqn:S.
  - now rewrite (strip_https_http u rest S).
  - reflexivity.
Qed.







End Shown.

(** * The workflow designer *)

Section DesignerProperties.
Import Designer.
Context `{Host}.

Lemma Forall_insert (P : WorkflowStep -> Prop) (a : WorkflowStep) (l : list WorkflowStep) :
  P a -> Forall P l -> Forall P (insert a l).
Proof.
  intros Pa. induction 1 as [|b l Pb Pl IH]; simpl.
  - now constructor.
  - destruct (step_number a - step_number b <=? 0)%Z; repeat constructor; trivial.
Qed.

Lemma insert_sorted (a : WorkflowStep) (l : list WorkflowStep) :
  StronglySorted by_number l -> StronglySorted by_number (insert a l).
Proof.
  induction 1 as [|b l S IH F]; simpl.
  - repeat constructor.
  - destruct (Z.leb_spec (step_number a - step_number b) 0) as [L|G].
    + constructor; [now constructor|]. constructor; [unfold by_number; lia|].
      eapply Forall_impl; [|exact F]. unfold by_number. intros c Hc. lia.
    + constructor; trivial. apply Forall_insert; trivial. unfold by_number. lia.
Qed.

Lemma sort_sorted (l : list WorkflowStep) : StronglySorted by_number (sort l).
Proof.
  induction l as [|a l IH]; simpl; [constructor|]. now apply insert_sorted.
Qed.

Lemma numbered_insert (n : Z) (a : WorkflowStep) (l : list WorkflowStep) :
  numbered n (insert a l)
  = if (step_number a =? n)%Z then a :: numbered n l else numbered n l.
Proof.
  unfold numbered. induction l as [|b l IH]; simpl; trivial.
  destruct (Z.leb_spec (step_number a - step_number b) 0) as [L|G]; simpl; trivial.
  rewrite IH.
  destruct (Z.eqb_spec (step_number a) n) as [E|N]; trivial.
  destruct (Z.eqb_spec (step_number b) n) as [E'|N']; trivial. lia.
Qed.

Lemma numbered_sort (n : Z) (l : list WorkflowStep) :
  numbered n (sort l) = numbered n l.
Proof.
  induction l as [|a l IH]; simpl; trivial.
  rewrite numbered_insert. unfold numbered in *. simpl. now rewrite IH.
Qed.

Lemma insert_perm (a : WorkflowStep) (l : list WorkflowStep) :
  Permutation (a :: l) (insert a l).
Proof.
  induction l as [|b l IH]; simpl; trivial.
  destruct (step_number a - step_number b <=? 0)%Z; trivial.
  rewrite perm_swap. now constructor.
Qed.

Lemma numbered_above (n : Z) (l : list WorkflowStep) :
  Forall (fun s => (n < step_number s)%Z) l -> numbered n l = [].
Proof.
  unfold numbered. induction 1 as [|b l L F IH]; simpl; trivial.
  destruct (Z.eqb_spec (step_number b) n); trivial. lia.
Qed.

Lemma numbered_head (a : WorkflowStep) (l : list WorkflowStep) :
  numbered (step_number a) (a :: l) = a :: numbered (step_number a) l.
Proof. unfold numbered. simpl. now rewrite Z.eqb_refl. Qed.

Lemma sorted_head_least (a b : WorkflowStep) (t1 t2 : list WorkflowStep) :
  StronglySorted by_number (a :: t1) -> StronglySorted by_number (b :: t2) ->
  (forall n, numbered n (a :: t1) = numbered n (b :: t2)) ->
  (step_number b <= step_number a)%Z.
Proof.
  intros S1 S2 E. destruct (Z.le_gt_cases (step_number b) (step_number a)) as [L|G]; trivial.
  specialize (E (step_number a)). rewrite numbered_head in E.
  rewrite (numbered_above _ (b :: t2)) in E; [discriminate|].
  apply StronglySorted_inv in S2 as [_ F]. constructor; trivial.
  eapply Forall_impl; [|exact F]. unfold by_number. intros c Hc. lia.
Qed.

Lemma stable_order_unique (l1 l2 : list WorkflowStep) :
  StronglySorted by_number l1 -> StronglySorted by_number l2 ->
  (forall n, numbered n l1 = numbered n l2) -> l1 = l2.
Proof.
  revert l2. induction l1 as [|a t1 IH]; intros [|b t2] S1 S2 E; trivial.
  - specialize (E (step_number b)). now rewrite numbered_head in E.
  - specialize (E (step_number a)). now rewrite numbered_head in E.
  - assert (K : step_number a = step_number b).
    { apply Z.le_antisymm.
      - apply (sorted_head_least b a t2 t1); trivial. intros n. now rewrite E.
      - now apply (sorted_head_least a b t1 t2). }
    pose proof (E (step_number a)) as E0.
    rewrite numbered_head, K, numbered_head in E0. injection E0 as -> E0.
    f_equal. apply IH.
    + now apply StronglySorted_inv in S1.
    + now apply StronglySorted_inv in S2.
    + intros n. specialize (E n). unfold numbered in *. simpl in E.
      destruct (step_number b =? n)%Z; trivial. now injection E.
Qed.

(** X11.  The steps listed under a workflow are its stored steps, each
    once, in nondecreasing order of [step_number], and steps that share a
    number stay in their stored order. *)
Theorem listed_steps_are_sorted_stably (wf : Workflow) (l : list WorkflowStep) (n : Z) :
  steps wf = Some l ->
  StronglySorted by_number (listed_steps wf)
  /\ Permutation l (listed_steps wf)
  /\ numbered n (listed_steps wf) = numbered n l.
Proof.
  intros E. unfold listed_steps. rewrite E. split; [apply sort_sorted|]. split.
  - clear E. induction l as [|a l IH]; simpl; trivial.
    rewrite <- insert_perm. now constructor.
  - apply numbered_sort.
Qed.

(** X12.  That order is forced: a list in nondecreasing order of
    [step_number] that keeps, for every number, the stored steps of that
    number in their stored order is the list shown. *)
Theorem listed_order_is_the_only_stable_one
    (wf : Workflow) (l shown : list WorkflowStep) :
  steps wf = Some l ->
  StronglySorted by_number shown ->
  (forall n, numbered n shown = numbered n l) ->
  shown = listed_steps wf.
Proof.
  intros E S N. unfold listed_steps. rewrite E.
  apply stable_order_unique; trivial; [apply sort_sorted|].
  intros n. now rewrite numbered_sort.
Qed.

Lemma find_workflow_found (workflows : list Workflow) (sel : Z) (wf : Workflow) :
  find_workflow workflows sel = Some wf -> In wf workflows /\ id wf = sel.
Proof.
  unfold find_workflow. intros F. apply find_some in F as [I E].
  split; trivial. now apply Z.eqb_eq.
Qed.

(** What a request of [handleAddStep] tells about its arguments. *)
Lemma handleAddStep_awaiting
    (workflows : list Workflow) (selected : option Z) (f : Form)
    (r : Request) (resume : Reply -> Form -> Form) :
  handleAddStep workflows selected f = Awaiting r resume ->
  exists sel wf,
    selected = Some sel /\ sel <> 0%Z
    /\ Trim.trim (newStepPrompt f) <> ""
    /\ In wf workflows /\ id wf = sel
    /\ find_workflow workflows sel = Some wf
    /\ r = PostStep (backendApiUrl ++ "/api/workflows/" ++ id_text sel ++ "/steps")
                    (Z.of_nat (steps_length wf) + 1) (newStepPrompt f).
Proof.
  unfold handleAddStep. destruct selected as [sel|]; [|discriminate].
  destruct (id_truthy (Some sel)) eqn:T; cbn [negb orb]; [|discriminate].
  cbn [ToBoolean].
  destruct (Trim.trim (newStepPrompt f) =? "") eqn:B; cbn [negb]; [discriminate|].
  destruct (find_workflow workflows sel) as [wf|] eqn:F; [|discriminate].
  intros [= <- _]. exists sel, wf.
  destruct (find_workflow_found _ _ _ F) as [I E].
  repeat split; trivial.
  - simpl in T. now destruct (Z.eqb_spec sel 0).
  - now apply String.eqb_neq.
Qed.

(** X13.  [handleAddStep] issues a request only for a selected workflow id
    other than [0] that is the id of a workflow of the list, and only for a
    prompt that is not blank; the request goes to the steps of that id and
    carries the prompt as typed, untrimmed, with the number of stored steps
    plus one as its step number. *)
Theorem add_step_request_is_guarded
    (workflows : list Workflow) (selected : option Z) (f : Form)
    (r : Request) (resume : Reply -> Form -> Form) :
  handleAddStep workflows selected f = Awaiting r resume ->
  exists sel wf,
    selected = Some sel /\ sel <> 0%Z
    /\ Trim.trim (newStepPrompt f) <> ""
    /\ In wf workflows /\ id wf = sel
    /\ find_workflow workflows sel = Some wf
    /\ r = PostStep (backendApiUrl ++ "/api/workflows/" ++ id_text sel ++ "/steps")
                    (Z.of_nat (steps_length wf) + 1) (newStepPrompt f).
Proof. apply handleAddStep_awaiting. Qed.

(** X14.  When the stored steps of the workflow carry distinct numbers
    within 1 and their count, the step number [handleAddStep] asks for is
    the count plus one and is the number of no stored step, and the stored
    steps with a new step of that number again carry distinct numbers within
    1 and their count: adding steps keeps the numbering dense and free of
    duplicates. *)
Theorem added_step_number_is_fresh
    (workflows : list Workflow) (sel : Z) (f : Form) (wf : Workflow)
    (l : list WorkflowStep) (u : string) (n : Z) (pr : string)
    (resume : Reply -> Form -> Form) (added : WorkflowStep) :
  handleAddStep workflows (Some sel) f = Awaiting (PostStep u n pr) resume ->
  find_workflow workflows sel = Some wf ->
  steps wf = Some l ->
  Forall (fun s => (1 <= step_number s <= Z.of_nat (List.length l))%Z) l ->
  NoDup (map step_number l) ->
  step_number added = n ->
  n = (Z.of_nat (List.length l) + 1)%Z
  /\ Forall (fun s => step_number s <> n) l
  /\ Forall (fun s => (1 <= step_number s <= Z.of_nat (List.length (l ++ [added])))%Z)
            (l ++ [added])
  /\ NoDup (map step_number (l ++ [added])).
Proof.
  intros A F S D U N.
  destruct (handleAddStep_awaiting _ _ _ _ _ A)
    as (sel' & wf' & E & _ & _ & _ & _ & F' & R).
  injection E as <-. rewrite F in F'. injection F' as <-.
  injection R as _ R _. unfold steps_length in R. rewrite S in R.
  rewrite R in *. clear R.
  assert (FR : Forall (fun s => step_number s <> (Z.of_nat (List.length l) + 1)%Z) l).
  { eapply Forall_impl; [|exact D]. simpl. intros s Hs. lia. }
  split; trivial. split; trivial. split.
  - rewrite length_app. apply (proj2 (Forall_app _ l [added])). split.
    + eapply Forall_impl; [|exact D]. simpl. intros s Hs. lia.
    + repeat constructor; simpl; lia.
  - rewrite map_app. simpl. apply NoDup_app; trivial.
    + repeat constructor. intros [].
    + intros x I [<-|[]]. apply in_map_iff in I as (s & E & I).
      rewrite Forall_forall in FR. apply (FR s I). congruence.
Qed.

End DesignerProperties.

(** * The further properties on concrete runs *)

Section MoreRuns.
Import Scenario Designer Sample.

(** The runs of this section are on [reference_host] unless a host is named. *)
#[local] Existing Instance reference_host.

(** X2 on the two chained steps: what was sent is the first result. *)
Lemma commands_relay_received_results_witness :
  In (stepInput (JStr "R1"))
     (sent_on 0 (run mounted (started ++ [WsMessage 0 (result_frame "1" "P1" "R1");
                                          WsMessage 0 nextStep_frame])))
  /\ ToBoolean (JStr "R1") = true
  /\ exists d,
       In d (result_payloads (started ++ [WsMessage 0 (result_frame "1" "P1" "R1");
                                          WsMessage 0 nextStep_frame]))
       /\ Get d "result" = inr (JStr "R1").
Proof.
  split; [vm_compute; now left|].
  apply (commands_relay_received_results (H := reference_host)
           (started ++ [WsMessage 0 (result_frame "1" "P1" "R1");
                        WsMessage 0 nextStep_frame]) 0 (JStr "R1")).
  vm_compute. now left.
Defined.

(** X3 on a second run started after an [error] frame: [wsRef] names the
    second of the two sockets. *)
Lemma wsRef_is_the_newest_socket_witness :
  wsRef (run mounted (started ++ [WsMessage 0 (error_frame "rate limited");
                                  RunClick (Some 7%Z)])) = Some 1
  /\ 2 = List.length
           (sockets (run mounted (started ++ [WsMessage 0 (error_frame "rate limited");
                                              RunClick (Some 7%Z)]))).
Proof.
  split; [vm_compute; reflexivity|].
  apply (wsRef_is_the_newest_socket (H := reference_host)
           (started ++ [WsMessage 0 (error_frame "rate limited"); RunClick (Some 7%Z)]) 1).
  vm_compute. reflexivity.
Defined.


(** X5 on clicks without a workflow and with workflow 0. *)
Lemma no_channel_without_a_selected_workflow_witness :
  sockets (run mounted [RunClick None; RunClick (Some 0%Z); WsOpen 0; BeforeUnload]) = []
  /\ isWorkflowRunning
       (run mounted [RunClick None; RunClick (Some 0%Z); WsOpen 0; BeforeUnload]) = false.
Proof.
  apply (no_channel_without_a_selected_workflow (H := reference_host)
           [RunClick None; RunClick (Some 0%Z); WsOpen 0; BeforeUnload]).
  vm_compute. reflexivity.
Defined.


(** X8 on a run that received a status frame. *)
Lemma shown_status_comes_from_the_run_witness :
  live_status (render (Some 7%Z) (Some "Blog")
                 (run mounted (started ++ [WsMessage 0 (status_frame "step 1 of 2")])))
  = Some (JStr "step 1 of 2")
  /\ (JStr "step 1 of 2" = JStr "Connecting to workflow engine..."
      \/ JStr "step 1 of 2" = JStr "Connection established. Starting workflow..."
      \/ exists ws data d,
           In (WsMessage ws data) (started ++ [WsMessage 0 (status_frame "step 1 of 2")])
           /\ frame_is "status" data = true
           /\ JSON_parse data = Some d /\ Get d "message" = inr (JStr "step 1 of 2")).
Proof.
  split; [vm_compute; reflexivity|].
  apply (shown_status_comes_from_the_run (H := reference_host)
           (started ++ [WsMessage 0 (status_frame "step 1 of 2")])
           (Some 7%Z) (Some "Blog") (JStr "step 1 of 2")).
  vm_compute. reflexivity.
Defined.

(** X9 on a backend on the developer's machine. *)
Lemma ws_url_replaces_leading_http_witness :
  wsUrl (H := local_host) = "ws://localhost:8000".
Proof.
  apply (ws_url_replaces_leading_http (H := local_host) "http://localhost:8000").
  - reflexivity.
  - discriminate.
Defined.


(** X11 on a workflow stored with its second step first. *)
Lemma listed_steps_are_sorted_stably_witness :
  listed_steps blog = [title; body]
  /\ StronglySorted by_number (listed_steps blog)
  /\ Permutation [body; title] (listed_steps blog)
  /\ numbered 2 (listed_steps blog) = numbered 2 [body; title].
Proof.
  split; [reflexivity|].
  apply (listed_steps_are_sorted_stably blog [body; title] 2). reflexivity.
Defined.

(** X12 on the same workflow. *)
Lemma listed_order_is_the_only_stable_one_witness :
  [title; body] = listed_steps blog.
Proof.
  apply (listed_order_is_the_only_stable_one blog [body; title] [title; body]).
  - reflexivity.
  - repeat constructor; unfold by_number; simpl; lia.
  - intros n. unfold numbered, title, body. cbn [filter step_number].
    destruct (Z.eqb_spec 1 n), (Z.eqb_spec 2 n); trivial; lia.
Defined.

(** X13 on a third step typed for that workflow. *)
Lemma add_step_request_is_guarded_witness :
  exists resume,
    handleAddStep [blog] (Some 7%Z) (typed " Summarise ")
    = Awaiting (PostStep "https://ai-orchestrator-backend.onrender.com/api/workflows/7/steps"
                         3 " Summarise ") resume
    /\ exists sel wf,
         Some 7%Z = Some sel /\ sel <> 0%Z
         /\ Trim.trim (newStepPrompt (typed " Summarise ")) <> ""
         /\ In wf [blog] /\ id wf = sel
         /\ find_workflow [blog] sel = Some wf
         /\ PostStep "https://ai-orchestrator-backend.onrender.com/api/workflows/7/steps"
                     3 " Summarise "
            = PostStep (backendApiUrl ++ "/api/workflows/" ++ id_text sel ++ "/steps")
                       (Z.of_nat (steps_length wf) + 1)
                       (newStepPrompt (typed " Summarise ")).
Proof.
  eexists. split; [reflexivity|].
  eapply (add_step_request_is_guarded (H := reference_host)). reflexivity.
Defined.

(** X14 on the same request: the third step gets number 3. *)
Lemma added_step_number_is_fresh_witness :
  3%Z = (Z.of_nat (List.length [body; title]) + 1)%Z
  /\ Forall (fun s => step_number s <> 3%Z) [body; title]
  /\ Forall (fun s => (1 <= step_number s
                       <= Z.of_nat (List.length ([body; title] ++ [mkStep 14 3 " Summarise "])))%Z)
            ([body; title] ++ [mkStep 14 3 " Summarise "])
  /\ NoDup (map step_number ([body; title] ++ [mkStep 14 3 " Summarise "])).
Proof.
  eapply (added_step_number_is_fresh (H := reference_host)
            [blog] 7 (typed " Summarise ") blog [body; title]
            _ 3 _ _ (mkStep 14 3 " Summarise ")).
  - reflexivity.
  - reflexivity.
  - reflexivity.
  - repeat constructor; simpl; lia.
  - repeat constructor; simpl; intuition discriminate.
  - reflexivity.
Defined.

End MoreRuns.
